(** * OWUI Toolset pipe: the SSE relay of [src/owui-pipe.py]

    A shallow embedding of [Pipe.pipe]: the configuration checks, the single
    HTTP request, the line loop with its token buffer and 50 ms flush timer,
    and the exception handlers at the boundary of the coroutine.

    Conventions of the model.
    - A Python [str] is a [string] read as a sequence of code points below 256.
    - [time.monotonic()] readings are binary64 floats, as in Python, and
      are subtracted and compared as such.
    - Awaiting is sequencing: the coroutine has one flow of control, so every
      [await] is a call whose effects happen before the next statement.
    - The libraries the code calls (httpx, json, the host's callback) are
      inputs of the model: what they return and what they raise. *)

From Stdlib Require Import PrimFloat.
From Stdlib Require Import String Ascii List ZArith Bool Arith Lia.
From Stdlib Require Import DecimalString.
Import ListNotations.

Set Warnings "-register-all".
Local Open Scope list_scope.
Local Open Scope string_scope.

(** ** Python strings *)

Module PyStr.

(** [str.isspace] on one code point below 256: TAB..CR, FS..US, SPACE,
    NEL (0x85) and NBSP (0xA0). *)
Definition isspace (c : ascii) : bool :=
  let n := nat_of_ascii c in
  (((9 <=? n) && (n <=? 13)) || ((28 <=? n) && (n <=? 32))
   || (n =? 133) || (n =? 160))%nat.

Fixpoint lstrip (s : string) : string :=
  match s with
  | String c r => if isspace c then lstrip r else s
  | EmptyString => EmptyString
  end.

Fixpoint rstrip (s : string) : string :=
  match s with
  | EmptyString => EmptyString
  | String c r =>
      match rstrip r with
      | EmptyString => if isspace c then EmptyString else String c EmptyString
      | r' => String c r'
      end
  end.

(** [s.strip()] *)
Definition strip (s : string) : string := rstrip (lstrip s).

(** [s.startswith(p)] *)
Definition startswith (p s : string) : bool := String.prefix p s.

(** [s[n:]] *)
Fixpoint slice_from (n : nat) (s : string) : string :=
  match n, s with
  | O, _ => s
  | S n', String _ r => slice_from n' r
  | S _, EmptyString => EmptyString
  end.

(** Truth value of a [str]. *)
Definition nonempty (s : string) : bool :=
  match s with EmptyString => false | String _ _ => true end.

(** The double quote, and a reader for JSON texts written with apostrophes
    in place of double quotes. *)
Definition dquote : ascii := "034"%char.

Fixpoint q (s : string) : string :=
  match s with
  | EmptyString => EmptyString
  | String c r => String (if Ascii.eqb c "'"%char then dquote else c) (q r)
  end.

(** [str(n)] for an [int]. *)
Definition of_Z (z : Z) : string := NilZero.string_of_int (Z.to_int z).

End PyStr.

(** ** Python values produced by [json.loads] *)

(** A [float] is kept as the decimal literal it was read from,
    [(-1) ^ negative * mantissa * 10 ^ exponent], or one of the three non-finite constants that
    [json.loads] accepts. *)
Inductive pyfloat : Type :=
| FDec (negative : bool) (mantissa exponent : Z)
| FInf (negative : bool)
| FNaN.

Inductive pyval : Type :=
| PNone
| PBool (b : bool)
| PInt (z : Z)
| PFloat (f : pyfloat)
| PStr (s : string)
| PList (l : list pyval)
| PDict (d : list (string * pyval)).

(** Exceptions, by the classes that the handlers of [pipe] tell apart. *)
Inductive timeout_phase : Type := ConnectPhase | ReadPhase | WritePhase | PoolPhase.

Inductive exn : Type :=
| TimeoutException (phase : timeout_phase)
    (* httpx.ConnectTimeout, ReadTimeout, WriteTimeout, PoolTimeout *)
| ConnectError
| HTTPStatusError (status_code : Z)
| JSONDecodeError (msg : string)
| PyException (msg : string)
    (* any other instance of Exception; [msg] is [str(e)] *)
| PyBaseException (name : string).
    (* outside Exception: asyncio.CancelledError, KeyboardInterrupt, ... *)

Inductive result (A : Type) : Type :=
| Ok (a : A)
| Raise (e : exn).
Arguments Ok {A} a.
Arguments Raise {A} e.

Module Py.

(** A binary64 literal is zero when it rounds to zero: its magnitude is at
    most half the least subnormal, [2 ^ -1075]. *)
Definition float_is_zero (f : pyfloat) : bool :=
  match f with
  | FDec _ m e =>
      (m =? 0)%Z
      || ((e <? 0)%Z && (Z.abs m * 2 ^ 1075 <=? 10 ^ (- e))%Z)
  | FInf _ | FNaN => false
  end.

(** [bool(v)] *)
Definition truthy (v : pyval) : bool :=
  match v with
  | PNone => false
  | PBool b => b
  | PInt z => negb (z =? 0)%Z
  | PFloat f => negb (float_is_zero f)
  | PStr s => PyStr.nonempty s
  | PList l => match l with [] => false | _ :: _ => true end
  | PDict d => match d with [] => false | _ :: _ => true end
  end.

(** [type(v).__name__] *)
Definition type_name (v : pyval) : string :=
  match v with
  | PNone => "NoneType"
  | PBool _ => "bool"
  | PInt _ => "int"
  | PFloat _ => "float"
  | PStr _ => "str"
  | PList _ => "list"
  | PDict _ => "dict"
  end.

Fixpoint lookup (k : string) (d : list (string * pyval)) : option pyval :=
  match d with
  | [] => None
  | (k', v) :: r => if String.eqb k k' then Some v else lookup k r
  end.

(** [d[k] = v] on a dict: a present key keeps its place. *)
Fixpoint dict_set (k : string) (v : pyval) (d : list (string * pyval))
  : list (string * pyval) :=
  match d with
  | [] => [(k, v)]
  | (k', v') :: r =>
      if String.eqb k k' then (k', v) :: r else (k', v') :: dict_set k v r
  end.

(** [v.get(k, default)]: only a dict has the method. *)
Definition get (v : pyval) (k : string) (default : pyval) : result pyval :=
  match v with
  | PDict d =>
      Ok match lookup k d with Some x => x | None => default end
  | _ =>
      Raise (PyException
               ("'" ++ type_name v ++ "' object has no attribute 'get'"))
  end.

(** [v[0]] *)
Definition item0 (v : pyval) : result pyval :=
  match v with
  | PList (x :: _) => Ok x
  | PList [] => Raise (PyException "list index out of range")
  | PStr (String c _) => Ok (PStr (String c EmptyString))
  | PStr EmptyString => Raise (PyException "string index out of range")
  | PDict _ => Raise (PyException "0")   (* KeyError(0) *)
  | _ =>
      Raise (PyException ("'" ++ type_name v ++ "' object is not subscriptable"))
  end.

(** [buf + v] for a [str] [buf]. *)
Definition str_concat (buf : string) (v : pyval) : result string :=
  match v with
  | PStr s => Ok (buf ++ s)
  | _ =>
      Raise (PyException
               ("can only concatenate str (not "
                  ++ String PyStr.dquote (type_name v)
                  ++ String PyStr.dquote ") to str"))
  end.

End Py.

(** ** The sink and the relay's state *)

(** The three dictionaries that [pipe] passes to [__event_emitter__]:
    type [message] with data [{content: c}], type [status] with data [d],
    and type [citation] with data [d]. *)
Inductive event : Type :=
| Message (content : string)
| Status (data : pyval)
| Citation (data : pyval).

(** A registered callback: given the events it was called with before and
    the event of this call, it returns ([None]) or raises. *)
Definition sink : Type := list event -> event -> option exn.

(** The variables of the streaming block ([nonlocal] for [flush_buffer]),
    with the two things the block does to the outside: the calls of the sink,
    oldest first, and the number of clock readings taken. *)
Record relay_state : Type := mkState {
  current_event : option string;
  token_buffer : string;
  last_flush : float;
  emitted : list event;
  ticks : nat
}.

Inductive control : Type := Continue | Break.

(** ** Computations that read and write the state and may raise *)

Definition M (A : Type) : Type := relay_state -> result A * relay_state.

Definition ret {A} (a : A) : M A := fun s => (Ok a, s).

Definition raise {A} (e : exn) : M A := fun s => (Raise e, s).

Definition bind {A B} (m : M A) (k : A -> M B) : M B :=
  fun s =>
    match m s with
    | (Ok a, s') => k a s'
    | (Raise e, s') => (Raise e, s')
    end.

(** [try: m except C: h], for the class [C] recognised by [catches]. *)
Definition try_except {A} (m : M A) (catches : exn -> bool) (h : M A) : M A :=
  fun s =>
    match m s with
    | (Raise e, s') => if catches e then h s' else (Raise e, s')
    | r => r
    end.

Definition lift {A} (r : result A) : M A := fun s => (r, s).

Definition gets {A} (f : relay_state -> A) : M A := fun s => (Ok (f s), s).

Definition modify (f : relay_state -> relay_state) : M unit :=
  fun s => (Ok tt, f s).

Declare Scope relay_scope.
Delimit Scope relay_scope with relay.
Notation "x <- m ;; k" := (bind m (fun x => k))
  (at level 61, m at next level, right associativity) : relay_scope.
Notation "m ;; k" := (bind m (fun _ => k))
  (at level 61, right associativity) : relay_scope.
Local Open Scope relay_scope.

Definition set_current_event (t : option string) : M unit :=
  modify (fun s => mkState t (token_buffer s) (last_flush s) (emitted s) (ticks s)).

Definition set_token_buffer (b : string) : M unit :=
  modify (fun s => mkState (current_event s) b (last_flush s) (emitted s) (ticks s)).

Definition set_last_flush (t : float) : M unit :=
  modify (fun s => mkState (current_event s) (token_buffer s) t (emitted s) (ticks s)).

(** [await f(ev)]: the call is made, then the callback returns or raises. *)
Definition await_emitter (f : sink) (ev : event) : M unit :=
  fun s =>
    let s' := mkState (current_event s) (token_buffer s) (last_flush s)
                      (emitted s ++ [ev])%list (ticks s) in
    match f (emitted s) ev with
    | None => (Ok tt, s')
    | Some e => (Raise e, s')
    end.

(** The truth value of [__event_emitter__]: [None] is false, a callback is
    true. *)
Definition registered (em : option sink) : bool :=
  match em with Some _ => true | None => false end.

(** [await __event_emitter__(ev)] as the source writes it, on whatever the
    parameter holds: calling [None] raises [TypeError]. *)
Definition await_event_emitter (em : option sink) (ev : event) : M unit :=
  match em with
  | Some f => await_emitter f ev
  | None => raise (PyException "'NoneType' object is not callable")
  end.

(** [0.05]: the binary64 float nearest to one twentieth. *)
Definition FLUSH_INTERVAL : float := 0x1.999999999999ap-5.

Definition is_JSONDecodeError (e : exn) : bool :=
  match e with JSONDecodeError _ => true | _ => false end.

Definition tag_is (t : string) (tag : option string) : bool :=
  match tag with Some x => String.eqb x t | None => false end.

Section Relay.

(** [json.loads]: the value, or the exception it raises. *)
Variable json_loads : string -> result pyval.

(** [__event_emitter__]: [None] or a callback. *)
Variable event_emitter : option sink.

(** [time.monotonic()]: the reading of the n-th call. *)
Variable clock : nat -> float.

Definition monotonic : M float :=
  fun s =>
    (Ok (clock (ticks s)),
     mkState (current_event s) (token_buffer s) (last_flush s)
             (emitted s) (S (ticks s))).

(** Lines 201-206. *)
Definition flush_buffer : M unit :=
  buf <- gets token_buffer ;;
  if PyStr.nonempty buf && registered event_emitter then
    await_event_emitter event_emitter (Message buf) ;;
    set_token_buffer "" ;;
    now <- monotonic ;;
    set_last_flush now
  else ret tt.

(** Lines 222-233: the branches on a decoded frame. In the third test
    [data.get('choices')] is evaluated before the callback is looked at. *)
Definition handle_data (data : pyval) : M unit :=
  tag <- gets current_event ;;
  if tag_is "status" tag && registered event_emitter then
    flush_buffer ;;
    d <- lift (Py.get data "data" (PDict [])) ;;
    await_event_emitter event_emitter (Status d)
  else if tag_is "source" tag && registered event_emitter then
    flush_buffer ;;
    d <- lift (Py.get data "data" (PDict [])) ;;
    await_event_emitter event_emitter (Citation d)
  else
    choices <- lift (Py.get data "choices" PNone) ;;
    if Py.truthy choices && registered event_emitter then
      first <- lift (Py.item0 choices) ;;
      delta <- lift (Py.get first "delta" (PDict [])) ;;
      content <- lift (Py.get delta "content" (PStr "")) ;;
      if Py.truthy content then
        buf <- gets token_buffer ;;
        buf' <- lift (Py.str_concat buf content) ;;
        set_token_buffer buf' ;;
        now <- monotonic ;;
        last <- gets last_flush ;;
        if PrimFloat.leb FLUSH_INTERVAL (PrimFloat.sub now last) then flush_buffer
        else ret tt
      else ret tt
    else ret tt.

(** Lines 209-236: one iteration of the [async for]. *)
Definition process_line (raw : string) : M control :=
  let line := PyStr.strip raw in
  if negb (PyStr.nonempty line) then ret Continue
  else if PyStr.startswith "event: " line then
    set_current_event (Some (PyStr.strip (PyStr.slice_from 7 line))) ;;
    ret Continue
  else if PyStr.startswith "data: " line then
    let data_str := PyStr.slice_from 6 line in
    if String.eqb data_str "[DONE]" then
      flush_buffer ;;
      ret Break
    else
      try_except
        (data <- lift (json_loads data_str) ;;
         handle_data data ;;
         set_current_event None)
        is_JSONDecodeError
        (set_current_event None) ;;
      ret Continue
  else ret Continue.

(** Lines 208-236: the loop; [Break] when the sentinel ended it,
    [Continue] when the lines ran out. *)
Fixpoint stream_loop (lines : list string) : M control :=
  match lines with
  | [] => ret Continue
  | l :: rest =>
      c <- process_line l ;;
      match c with
      | Break => ret Break
      | Continue => stream_loop rest
      end
  end.

(** Lines 192-239 on a response body: [lines] is what [aiter_lines]
    yields and [ending] what it does after the last one, stop ([None]) or
    raise. Lines after the sentinel are never asked for. *)
Definition relay_body (lines : list string) (ending : option exn) : M unit :=
  c <- stream_loop lines ;;
  match c, ending with
  | Continue, Some e => raise e
  | _, _ => ret tt
  end ;;
  flush_buffer.

End Relay.

(** ** The coroutine [pipe] *)

(** The valves that [pipe] and [_has_tools_enabled] read. *)
Record Valves : Type := mkValves {
  TOOLSET_API_URL : string;
  TOOLSET_API_KEY : string;
  TOOL_CALLING_LLM_PROVIDER : string;
  TOOL_CALLING_LLM_MODEL : string;
  CONVERSATIONAL_LLM_PROVIDER : string;
  CONVERSATIONAL_LLM_MODEL : string;
  TAVILY_API_KEY : string;
  COMFYUI_BASE_URL : string;
  ENABLE_WEB_SEARCH : bool;
  ENABLE_WEB_SCRAPE : bool;
  ENABLE_DEEP_RESEARCH : bool;
  ENABLE_SANDBOX : bool;
  ENABLE_IMAGE_GENERATION : bool;
  ENABLE_IMAGE_EDIT : bool;
  ENABLE_IMAGE_BLEND : bool;
  ENABLE_MEMORY : bool;
  ENABLE_DATE_TIME : bool;
  ENABLE_FILE_RECALL : bool;
  FILE_RECALL_INSTANCE_ID : string
}.

(** Lines 103-121, as the truth value of what the method returns (the only
    use [pipe] makes of it besides copying it into the payload). *)
Definition _has_tools_enabled (v : Valves) : bool :=
  let has_web_tools :=
    PyStr.nonempty (TAVILY_API_KEY v)
    && (ENABLE_WEB_SEARCH v || ENABLE_WEB_SCRAPE v || ENABLE_DEEP_RESEARCH v) in
  let has_image_tools :=
    PyStr.nonempty (COMFYUI_BASE_URL v)
    && (ENABLE_IMAGE_GENERATION v || ENABLE_IMAGE_EDIT v || ENABLE_IMAGE_BLEND v) in
  let has_file_recall :=
    PyStr.nonempty (FILE_RECALL_INSTANCE_ID v) && ENABLE_FILE_RECALL v in
  has_web_tools || has_image_tools || ENABLE_SANDBOX v || ENABLE_MEMORY v
  || ENABLE_DATE_TIME v || has_file_recall.

(** The call [client.stream("POST", url, json=payload, headers=...)]. Of the
    payload the record keeps the selection made on lines 138-140; the rest
    copies the valves and the arguments of the call. *)
Record request : Type := mkRequest {
  req_method : string;
  req_url : string;
  req_authorization : string;
  req_content_type : string;
  req_use_tools : bool;
  req_llm_provider : string;
  req_llm_model : string
}.

(** What the transport does with the request: entering the stream raises,
    or a response arrives with its status code, the lines of its body and
    the way the body ends. *)
Inductive transport_result : Type :=
| StreamRaises (e : exn)
| Response (status_code : Z) (lines : list string) (ending : option exn).

(** One run of [pipe], seen from outside: the value returned ([Ok]) or the
    exception that leaves the coroutine ([Raise]), the calls of the sink and
    the requests handed to the transport. *)
Record outcome : Type := mkOutcome {
  returned : result string;
  sink_calls : list event;
  network_calls : list request
}.

(** [response.raise_for_status()]: every status outside 2xx raises. *)
Definition raise_for_status (status_code : Z) : result unit :=
  if ((200 <=? status_code) && (status_code <=? 299))%Z then Ok tt
  else Raise (HTTPStatusError status_code).

Definition build_request (v : Valves) : request :=
  let use_tools := _has_tools_enabled v in
  mkRequest "POST"
            (TOOLSET_API_URL v ++ "/api/v1/chat")
            ("Bearer " ++ TOOLSET_API_KEY v)
            "application/json"
            use_tools
            (if use_tools then TOOL_CALLING_LLM_PROVIDER v
             else CONVERSATIONAL_LLM_PROVIDER v)
            (if use_tools then TOOL_CALLING_LLM_MODEL v
             else CONVERSATIONAL_LLM_MODEL v).

(** Lines 241-248: the four handlers, tried in order. An exception that is
    not an instance of [Exception] meets none of them. *)
Definition handlers (v : Valves) (e : exn) : result string :=
  match e with
  | TimeoutException _ => Ok "Error: Request timed out"
  | ConnectError => Ok ("Error: Could not connect to " ++ TOOLSET_API_URL v)
  | HTTPStatusError code => Ok ("Error: HTTP " ++ PyStr.of_Z code)
  | JSONDecodeError msg => Ok ("Error: " ++ msg)
  | PyException msg => Ok ("Error: " ++ msg)
  | PyBaseException _ => Raise e
  end.

Section Pipe.

Variable json_loads : string -> result pyval.
Variable event_emitter : option sink.
Variable clock : nat -> float.

(** The HTTP client. *)
Variable transport : request -> transport_result.

(** Lines 191-239, from the response to the final flush. *)
Definition relay_response (status_code : Z) (lines : list string)
    (ending : option exn) : M unit :=
  lift (raise_for_status status_code) ;;
  set_current_event None ;;
  set_token_buffer "" ;;
  now <- monotonic clock ;;
  set_last_flush now ;;
  relay_body json_loads event_emitter clock lines ending.

(** The state before the first statement of the [try] block; the three
    variables are assigned by [relay_response]. *)
Definition initial_state : relay_state := mkState None "" 0 [] 0.

(** Lines 132-248. *)
Definition pipe (v : Valves) : outcome :=
  if negb (PyStr.nonempty (TOOLSET_API_URL v)) then
    mkOutcome (Ok "Error: TOOLSET_API_URL not configured") [] []
  else if negb (PyStr.nonempty (TOOLSET_API_KEY v)) then
    mkOutcome (Ok "Error: TOOLSET_API_KEY not configured") [] []
  else
    let req := build_request v in
    let '(r, s) :=
      match transport req with
      | StreamRaises e => (Raise e, initial_state)
      | Response code lines ending =>
          relay_response code lines ending initial_state
      end in
    mkOutcome
      match r with
      | Ok _ => Ok ""
      | Raise e => handlers v e
      end
      (emitted s) [req].

End Pipe.

(** ** A reference decoder for [json.loads]

    The theorems about the relay hold for every decoder; this one is used to
    run the relay on concrete frames. It follows the scanner of CPython's
    [json] module: whitespace is space, TAB, LF and CR; a number is an
    optional minus, then 0 or a run of digits that does not start with 0, then
    optionally a point with digits, then optionally e or E with a signed run
    of digits; [NaN], [Infinity] and [-Infinity] are accepted; strings are
    strict (no control characters); a repeated key keeps its first place and
    its last value.

    Three ways to fail are told apart, as CPython does: a text that is not
    JSON raises [JSONDecodeError]; an integer of more than 4300 digits raises
    [ValueError] (the default of [sys.set_int_max_str_digits]); arrays and
    objects nested deeper than the interpreter allows raise [RecursionError].
    How deep that is depends on the interpreter and on the frames already in
    use: it is the parameter [limit] of [decode]. [loads] takes what CPython
    3.11 leaves to a call made at the top level of a module, the default
    recursion limit of 1000 less six frames; a call made deeper, as the one
    of [pipe] is, has less. The text of a [JSONDecodeError] is not modelled:
    [pipe] never reads it.

    An escape above u00ff names a code point that the 8-bit string model
    lacks; such texts are outside the model and the decoder rejects them. *)
Module Json.

Definition decode_error : exn := JSONDecodeError "Expecting value".

(** [sys.int_info.default_max_str_digits], [sys.getrecursionlimit()] and
    the frames in use when [json.loads] is called at the top level. *)
Definition max_str_digits : nat := 4300.
Definition recursion_limit : nat := 1000.
Definition frames_in_use : nat := 6.

Inductive failure : Type :=
| Malformed
| TooDeep (container : string)
| TooManyDigits (digits : nat).

(** The exception each failure raises: [JSONDecodeError], [RecursionError],
    [ValueError]. *)
Definition exn_of_failure (why : failure) : exn :=
  match why with
  | Malformed => decode_error
  | TooDeep container =>
      PyException ("maximum recursion depth exceeded while decoding a JSON "
                     ++ container ++ " from a unicode string")
  | TooManyDigits n =>
      PyException ("Exceeds the limit (4300 digits) for integer string conversion: "
                     ++ "value has " ++ PyStr.of_Z (Z.of_nat n)
                     ++ " digits; use sys.set_int_max_str_digits() to increase the limit")
  end.

(** What scanning a value at the head of a text gives. *)
Inductive scanned : Type :=
| Found (v : pyval) (rest : string)
| Failed (why : failure).

Definition is_ws (c : ascii) : bool :=
  let n := nat_of_ascii c in
  ((n =? 32) || (n =? 9) || (n =? 10) || (n =? 13))%nat.

Fixpoint skip_ws (s : string) : string :=
  match s with
  | String c r => if is_ws c then skip_ws r else s
  | EmptyString => EmptyString
  end.

Definition digit_value (c : ascii) : option Z :=
  let n := nat_of_ascii c in
  if ((48 <=? n) && (n <=? 57))%nat then Some (Z.of_nat (n - 48)) else None.

Definition hex_value (c : ascii) : option Z :=
  let n := nat_of_ascii c in
  if ((48 <=? n) && (n <=? 57))%nat then Some (Z.of_nat (n - 48))
  else if ((65 <=? n) && (n <=? 70))%nat then Some (Z.of_nat (n - 55))
  else if ((97 <=? n) && (n <=? 102))%nat then Some (Z.of_nat (n - 87))
  else None.

(** The longest run of digits at the head of [s]: its value when read after
    [acc], its length, and what follows it. *)
Fixpoint take_digits (acc : Z) (len : nat) (s : string) : Z * nat * string :=
  match s with
  | String c r =>
      match digit_value c with
      | Some d => take_digits (10 * acc + d) (S len) r
      | None => (acc, len, s)
      end
  | EmptyString => (acc, len, s)
  end.

(** The integer part of a number: sign, value, number of digits and rest. *)
Definition scan_integer (s : string) : option (bool * Z * nat * string) :=
  let '(neg, body) :=
    match s with
    | String "-" r => (true, r)
    | _ => (false, s)
    end in
  match body with
  | String "0" r => Some (neg, 0%Z, 1%nat, r)
  | String c _ =>
      match digit_value c with
      | Some _ => let '(v, n, r) := take_digits 0 0 body in Some (neg, v, n, r)
      | None => None
      end
  | EmptyString => None
  end.

(** The fraction: its digits appended to [int_part] and their number. *)
Definition scan_fraction (int_part : Z) (s : string) : option (Z * nat * string) :=
  match s with
  | String "." r =>
      match take_digits int_part 0 r with
      | (_, O, _) => None
      | found => Some found
      end
  | _ => None
  end.

(** The exponent. *)
Definition scan_exponent (s : string) : option (Z * string) :=
  match s with
  | String c r =>
      if (Ascii.eqb c "e" || Ascii.eqb c "E")%bool then
        let '(neg, body) :=
          match r with
          | String "-" r' => (true, r')
          | String "+" r' => (false, r')
          | _ => (false, r)
          end in
        match take_digits 0 0 body with
        | (_, O, _) => None
        | (v, _, rest) => Some (if neg then (- v)%Z else v, rest)
        end
      else None
  | EmptyString => None
  end.

(** A number at the head of [s], if one is there: a float when it has a
    fraction or an exponent, else an int, whose conversion fails beyond
    [max_str_digits] digits. *)
Definition scan_number (s : string) : option scanned :=
  match scan_integer s with
  | None => None
  | Some (neg, i, digits, r) =>
      let '(m, frac_len, r1, has_frac) :=
        match scan_fraction i r with
        | Some (m, n, r1) => (m, n, r1, true)
        | None => (i, O, r, false)
        end in
      let '(e, r2, has_exp) :=
        match scan_exponent r1 with
        | Some (e, r2) => (e, r2, true)
        | None => (0%Z, r1, false)
        end in
      if (has_frac || has_exp)%bool then
        Some (Found (PFloat (FDec neg m (e - Z.of_nat frac_len))) r2)
      else if (max_str_digits <? digits)%nat then
        Some (Failed (TooManyDigits digits))
      else Some (Found (PInt (if neg then (- i)%Z else i)) r2)
  end.

(** The body of a string, after its opening quote. *)
Fixpoint scan_string (s : string) : option (string * string) :=
  match s with
  | EmptyString => None
  | String c r =>
      if Ascii.eqb c PyStr.dquote then Some (EmptyString, r)
      else if Ascii.eqb c "\" then
        match r with
        | String e r' =>
            let simple (x : ascii) :=
              match scan_string r' with
              | Some (t, rest) => Some (String x t, rest)
              | None => None
              end in
            if Ascii.eqb e PyStr.dquote then simple PyStr.dquote
            else if Ascii.eqb e "\" then simple "\"%char
            else if Ascii.eqb e "/" then simple "/"%char
            else if Ascii.eqb e "b" then simple "008"%char
            else if Ascii.eqb e "f" then simple "012"%char
            else if Ascii.eqb e "n" then simple "010"%char
            else if Ascii.eqb e "r" then simple "013"%char
            else if Ascii.eqb e "t" then simple "009"%char
            else if Ascii.eqb e "u" then
              match r' with
              | String h1 (String h2 (String h3 (String h4 r''))) =>
                  match hex_value h1, hex_value h2, hex_value h3, hex_value h4 with
                  | Some 0%Z, Some 0%Z, Some a, Some b =>
                      match scan_string r'' with
                      | Some (t, rest) =>
                          Some (String (ascii_of_nat (Z.to_nat (16 * a + b))) t, rest)
                      | None => None
                      end
                  | _, _, _, _ => None
                  end
              | _ => None
              end
            else None
        | EmptyString => None
        end
      else if (nat_of_ascii c <? 32)%nat then None
      else
        match scan_string r with
        | Some (t, rest) => Some (String c t, rest)
        | None => None
        end
  end.

Section Containers.

(** The scanner for one value, one level down. *)
Variable scan_once : string -> scanned.

(** Where an element of an array is due: the element, then a comma and
    another element, or the closing bracket. *)
Fixpoint scan_elements (fuel : nat) (acc : list pyval) (s : string) : scanned :=
  match fuel with
  | O => Failed Malformed
  | S fuel' =>
      match scan_once s with
      | Failed why => Failed why
      | Found v r =>
          match skip_ws r with
          | String "]" r' => Found (PList (rev (v :: acc))) r'
          | String "," r' => scan_elements fuel' (v :: acc) (skip_ws r')
          | _ => Failed Malformed
          end
      end
  end.

(** At the opening quote of a key: the pair, then a comma and another
    pair, or the closing brace. *)
Fixpoint scan_members (fuel : nat) (acc : list (string * pyval)) (s : string)
  : scanned :=
  match fuel with
  | O => Failed Malformed
  | S fuel' =>
      match s with
      | String c r =>
          if Ascii.eqb c PyStr.dquote then
            match scan_string r with
            | Some (k, r1) =>
                match skip_ws r1 with
                | String ":" r2 =>
                    match scan_once (skip_ws r2) with
                    | Found v r3 =>
                        let acc' := Py.dict_set k v acc in
                        match skip_ws r3 with
                        | String "}" r4 => Found (PDict acc') r4
                        | String "," r4 => scan_members fuel' acc' (skip_ws r4)
                        | _ => Failed Malformed
                        end
                    | Failed why => Failed why
                    end
                | _ => Failed Malformed
                end
            | None => Failed Malformed
            end
          else Failed Malformed
      | EmptyString => Failed Malformed
      end
  end.

End Containers.

(** One value at the head of [s], inside [depth] arrays and objects; an
    array or object that would be nested deeper than [limit] is refused
    when its opening bracket is met. *)
Fixpoint scan_value (limit fuel depth : nat) (s : string) : scanned :=
  match fuel with
  | O => Failed Malformed
  | S fuel' =>
      match s with
      | EmptyString => Failed Malformed
      | String c r =>
          if Ascii.eqb c PyStr.dquote then
            match scan_string r with
            | Some (t, rest) => Found (PStr t) rest
            | None => Failed Malformed
            end
          else if Ascii.eqb c "{" then
            if (limit <=? depth)%nat then Failed (TooDeep "object")
            else
              match skip_ws r with
              | String "}" r' => Found (PDict []) r'
              | body =>
                  scan_members (scan_value limit fuel' (S depth))
                               (String.length s) [] body
              end
          else if Ascii.eqb c "[" then
            if (limit <=? depth)%nat then Failed (TooDeep "array")
            else
              match skip_ws r with
              | String "]" r' => Found (PList []) r'
              | body =>
                  scan_elements (scan_value limit fuel' (S depth))
                                (String.length s) [] body
              end
          else if PyStr.startswith "null" s then Found PNone (PyStr.slice_from 4 s)
          else if PyStr.startswith "true" s then Found (PBool true) (PyStr.slice_from 4 s)
          else if PyStr.startswith "false" s then Found (PBool false) (PyStr.slice_from 5 s)
          else
            match scan_number s with
            | Some found => found
            | None =>
                if PyStr.startswith "NaN" s then
                  Found (PFloat FNaN) (PyStr.slice_from 3 s)
                else if PyStr.startswith "Infinity" s then
                  Found (PFloat (FInf false)) (PyStr.slice_from 8 s)
                else if PyStr.startswith "-Infinity" s then
                  Found (PFloat (FInf true)) (PyStr.slice_from 9 s)
                else Failed Malformed
            end
      end
  end.

(** [json.loads(s)] under a nesting limit. *)
Definition decode (limit : nat) (s : string) : result pyval :=
  match scan_value limit (S (String.length s)) 0 (skip_ws s) with
  | Found v r =>
      match skip_ws r with
      | EmptyString => Ok v
      | _ => Raise decode_error
      end
  | Failed why => Raise (exn_of_failure why)
  end.

(** [json.loads(s)] *)
Definition loads (s : string) : result pyval :=
  decode (recursion_limit - frames_in_use) s.

End Json.

(** ** Vocabulary of the statements *)

(** The [Message] that a flush owes for the text in the buffer. *)
Definition pending_message (s : relay_state) : list event :=
  if PyStr.nonempty (token_buffer s) then [Message (token_buffer s)] else [].

(** The state with the event tag cleared ([current_event = None]). *)
Definition clear_tag (s : relay_state) : relay_state :=
  mkState None (token_buffer s) (last_flush s) (emitted s) (ticks s).

(** A decoded frame whose [choices[0].delta.content] is the text [c],
    through the accessors of line 228-229. *)
Definition token_frame (data : pyval) (c : string) : Prop :=
  exists choices first delta,
    Py.get data "choices" PNone = Ok choices
    /\ Py.truthy choices = true
    /\ Py.item0 choices = Ok first
    /\ Py.get first "delta" (PDict []) = Ok delta
    /\ Py.get delta "content" (PStr "") = Ok (PStr c).

(** A decoded frame whose [choices[0].delta.content] is the object [x]. *)
Definition frame_content (data x : pyval) : Prop :=
  exists choices first delta,
    Py.get data "choices" PNone = Ok choices
    /\ Py.truthy choices = true
    /\ Py.item0 choices = Ok first
    /\ Py.get first "delta" (PDict []) = Ok delta
    /\ Py.get delta "content" (PStr "") = Ok x.

(** A data line that the decoder reads as a token frame with the non-empty
    text [c]. *)
Definition token_line (json_loads : string -> result pyval) (raw c : string) : Prop :=
  exists d v,
    PyStr.strip raw = "data: " ++ d
    /\ d <> "[DONE]"
    /\ json_loads d = Ok v
    /\ token_frame v c
    /\ PyStr.nonempty c = true.


(** A line whose payload, if it is a data line other than the sentinel, is
    decoded to an object or rejected as malformed. *)
Definition object_or_malformed (json_loads : string -> result pyval) (raw : string)
  : Prop :=
  forall d,
    PyStr.strip raw = "data: " ++ d ->
    d <> "[DONE]" ->
    (exists kv, json_loads d = Ok (PDict kv))
    \/ (exists msg, json_loads d = Raise (JSONDecodeError msg)).

(** Instances of [Exception], the class of the last handler. *)
Definition is_Exception (e : exn) : bool :=
  match e with PyBaseException _ => false | _ => true end.

(** The sink never raises an exception outside [Exception]. *)
Definition sink_raises_Exception_only (em : option sink) : Prop :=
  forall f h ev e, em = Some f -> f h ev = Some e -> is_Exception e = true.

(** Neither does the transport, on entry or in the body. *)
Definition transport_raises_Exception_only (tr : request -> transport_result) : Prop :=
  forall req e,
    (tr req = StreamRaises e -> is_Exception e = true)
    /\ (forall code lines, tr req = Response code lines (Some e) -> is_Exception e = true).

(** A computation that raises instances of [Exception] only. *)
Definition raises_Exception_only {A} (m : M A) : Prop :=
  forall s e s', m s = (Raise e, s') -> is_Exception e = true.

(** ** The outbound payload (lines 138-177) *)

Module Payload.

(** The valves that the payload copies and nothing else reads. *)
Record CopiedValves : Type := mkCopiedValves {
  ANTHROPIC_API_KEY : string;
  OPENAI_API_KEY : string;
  OLLAMA_BASE_URL : string;
  DOCLING_BASE_URL : string;
  CUSTOM_SYSTEM_PROMPT : string;
  COMPACTION_LLM_PROVIDER : string;
  COMPACTION_LLM_MODEL : string;
  ENABLE_COMPACTION : bool
}.

(** The arguments of [pipe] that the payload is built from, by their
    annotations: a dict, dicts or [None], a list or [None], a str or [None]. *)
Record Call : Type := mkCall {
  body : list (string * pyval);
  __user__ : option (list (string * pyval));
  __metadata__ : option (list (string * pyval));
  __files__ : option (list pyval);
  __chat_id__ : option string
}.

(** [a and b], [a or b]: the operand that decides, not its truth value. *)
Definition py_and (a b : pyval) : pyval := if Py.truthy a then b else a.
Definition py_or (a b : pyval) : pyval := if Py.truthy a then a else b.

(** Lines 103-121: the object that the method returns. *)
Definition _has_tools_enabled (v : Valves) : pyval :=
  let has_web_tools :=
    py_and (PStr (TAVILY_API_KEY v))
           (py_or (py_or (PBool (ENABLE_WEB_SEARCH v)) (PBool (ENABLE_WEB_SCRAPE v)))
                  (PBool (ENABLE_DEEP_RESEARCH v))) in
  let has_image_tools :=
    py_and (PStr (COMFYUI_BASE_URL v))
           (py_or (py_or (PBool (ENABLE_IMAGE_GENERATION v)) (PBool (ENABLE_IMAGE_EDIT v)))
                  (PBool (ENABLE_IMAGE_BLEND v))) in
  let has_file_recall :=
    py_and (PStr (FILE_RECALL_INSTANCE_ID v)) (PBool (ENABLE_FILE_RECALL v)) in
  py_or (py_or (py_or (py_or (py_or has_web_tools has_image_tools)
                             (PBool (ENABLE_SANDBOX v)))
                      (PBool (ENABLE_MEMORY v)))
               (PBool (ENABLE_DATE_TIME v)))
        has_file_recall.

(** [x or {}] for an optional dict, [x or []] for an optional list: the
    items of the result. *)
Definition or_empty_dict (x : option (list (string * pyval)))
  : list (string * pyval) :=
  match x with
  | Some d => d
  | None => []
  end.

Definition or_empty_list (x : option (list pyval)) : list pyval :=
  match x with
  | Some l => l
  | None => []
  end.

(** [d.get(k, default)] on the items of a dict. *)
Definition dict_get (d : list (string * pyval)) (k : string) (default : pyval)
  : pyval :=
  match Py.lookup k d with
  | Some x => x
  | None => default
  end.

(** Line 144. *)
Definition conversation_id (a : Call) : pyval :=
  match __chat_id__ a with
  | Some (String c r) => PStr (String c r)
  | _ => dict_get (or_empty_dict (__metadata__ a)) "chat_id" (PStr "unknown")
  end.

(** Line 145. *)
Definition user_email (a : Call) : pyval :=
  match __user__ a with
  | Some (kv :: d) => dict_get (kv :: d) "email" (PStr "unknown")
  | _ => PStr "unknown"
  end.

(** Line 146. *)
Definition owui_instance (a : Call) : pyval :=
  dict_get (or_empty_dict (__metadata__ a)) "interface" (PStr "open-webui").

(** Lines 164-175. *)
Definition tools (v : Valves) : pyval :=
  PDict [("web_search", PBool (ENABLE_WEB_SEARCH v));
         ("web_scrape", PBool (ENABLE_WEB_SCRAPE v));
         ("deep_research", PBool (ENABLE_DEEP_RESEARCH v));
         ("sandbox", PBool (ENABLE_SANDBOX v));
         ("image_generation", PBool (ENABLE_IMAGE_GENERATION v));
         ("image_edit", PBool (ENABLE_IMAGE_EDIT v));
         ("image_blend", PBool (ENABLE_IMAGE_BLEND v));
         ("memory", PBool (ENABLE_MEMORY v));
         ("date_time", PBool (ENABLE_DATE_TIME v));
         ("file_recall", PBool (ENABLE_FILE_RECALL v))].

(** Lines 138-140 and 148-176. *)
Definition config (v : Valves) (c : CopiedValves) : pyval :=
  let use_tools := _has_tools_enabled v in
  let provider :=
    if Py.truthy use_tools then TOOL_CALLING_LLM_PROVIDER v
    else CONVERSATIONAL_LLM_PROVIDER v in
  let model :=
    if Py.truthy use_tools then TOOL_CALLING_LLM_MODEL v
    else CONVERSATIONAL_LLM_MODEL v in
  PDict [("llm_provider", PStr provider);
         ("llm_model", PStr model);
         ("use_tools", use_tools);
         ("anthropic_api_key", PStr (ANTHROPIC_API_KEY c));
         ("openai_api_key", PStr (OPENAI_API_KEY c));
         ("ollama_base_url", PStr (OLLAMA_BASE_URL c));
         ("tavily_api_key", PStr (TAVILY_API_KEY v));
         ("docling_base_url", PStr (DOCLING_BASE_URL c));
         ("comfyui_base_url", PStr (COMFYUI_BASE_URL v));
         ("toolset_api_url", PStr (TOOLSET_API_URL v));
         ("custom_system_prompt", PStr (CUSTOM_SYSTEM_PROMPT c));
         ("compaction_provider", PStr (COMPACTION_LLM_PROVIDER c));
         ("compaction_model", PStr (COMPACTION_LLM_MODEL c));
         ("enable_compaction", PBool (ENABLE_COMPACTION c));
         ("file_recall_instance_id", PStr (FILE_RECALL_INSTANCE_ID v));
         ("tools", tools v)].

(** Lines 142-177: the items of [body], then the five keys set in order. *)
Definition payload (v : Valves) (c : CopiedValves) (a : Call)
  : list (string * pyval) :=
  Py.dict_set "config" (config v c)
    (Py.dict_set "files" (PList (or_empty_list (__files__ a)))
       (Py.dict_set "owui_instance" (owui_instance a)
          (Py.dict_set "user_email" (user_email a)
             (Py.dict_set "conversation_id" (conversation_id a) (body a))))).

(** The keys that [pipe] sets itself. *)
Definition reserved : list string :=
  ["conversation_id"; "user_email"; "owui_instance"; "files"; "config"].

End Payload.

(** ** What the host sees of the sink calls *)

(** [a] joined to the front of a list already in joined form. *)
Definition join_front (a : string) (evs : list event) : list event :=
  match evs with
  | Message b :: r => Message (a ++ b) :: r
  | _ => Message a :: evs
  end.

(** The calls with every run of adjacent [Message]s joined into one. *)
Fixpoint coalesce (evs : list event) : list event :=
  match evs with
  | [] => []
  | Message a :: rest => join_front a (coalesce rest)
  | e :: rest => e :: coalesce rest
  end.

(** What has been received so far, sent or still in the buffer. *)
Definition view (s : relay_state) : list event :=
  coalesce (emitted s ++ pending_message s).

(** Two runs that agree on the tag and on what has been received. *)
Definition sim (s1 s2 : relay_state) : Prop :=
  current_event s1 = current_event s2 /\ view s1 = view s2.

(** Two computations that keep such runs in step. *)
Definition in_step {A} (m1 m2 : M A) : Prop :=
  forall s1 s2,
    sim s1 s2 ->
    fst (m1 s1) = fst (m2 s2) /\ sim (snd (m1 s1)) (snd (m2 s2)).

(** A sink call that is not a [Message] without text. *)
Definition sound_event (ev : event) : bool :=
  match ev with
  | Message c => PyStr.nonempty c
  | _ => true
  end.

(** Every call made so far is sound. *)
Definition calls_sound (s : relay_state) : Prop :=
  Forall (fun ev => sound_event ev = true) (emitted s).

(** A computation that keeps a property of the state, however it ends. *)
Definition preserves {A} (P : relay_state -> Prop) (m : M A) : Prop :=
  forall s r s', P s -> m s = (r, s') -> P s'.

(** ** Running the relay on concrete inputs *)

Module Fixtures.

(** A callback that returns from every call. *)
Definition accepting_sink : sink := fun _ _ => None.

(** A clock that stands still: every frame arrives within the window. *)
Definition frozen_clock : nat -> float := fun _ => 0%float.


(** The default valves of the source, with an API key set. *)
Definition valves : Valves :=
  mkValves "http://localhost:3000" "secret"
           "anthropic" "claude-sonnet-4-5" "openai" "gpt-5.2"
           "" "" true true true true true true true true true false "".

(** The default valves as they are: the API key is empty. *)
Definition default_valves : Valves :=
  mkValves "http://localhost:3000" ""
           "anthropic" "claude-sonnet-4-5" "openai" "gpt-5.2"
           "" "" true true true true true true true true true false "".

Definition frame_He : string := PyStr.q "data: {'choices':[{'delta':{'content':'He'}}]}".
Definition frame_llo : string := PyStr.q "data: {'choices':[{'delta':{'content':'llo'}}]}".
Definition frame_done : string := "data: [DONE]".
Definition frame_status : string := PyStr.q "data: {'data':{'phase':'searching'}}".
Definition frame_bad : string := "data: {bad".
Definition frame_choices_true : string := PyStr.q "data: {'choices': true}".

Definition serve (lines : list string) (ending : option exn) : request -> transport_result :=
  fun _ => Response 200 lines ending.

(** A clock that advances one second at every reading. *)
Fixpoint seconds (n : nat) : float :=
  match n with
  | O => 0%float
  | S k => PrimFloat.add (seconds k) 1
  end.


Definition fresh : relay_state := mkState None "" 0 [] 1.

(** The defaults of the valves that the payload copies. *)
Definition copied_valves : Payload.CopiedValves :=
  Payload.mkCopiedValves "" "" "http://localhost:11434" "http://localhost:5001" ""
                         "anthropic" "claude-haiku-4-5" true.

(** Every tool switched off and no service configured. *)
Definition bare_valves : Valves :=
  mkValves "http://localhost:3000" "secret"
           "anthropic" "claude-sonnet-4-5" "openai" "gpt-5.2"
           "" "" true true true false true true true false false false "".

(** [n] opening brackets, and a payload nested deeper than any interpreter
    allows: more than 131072 of them. *)
Fixpoint brackets (n : nat) : string :=
  match n with
  | O => EmptyString
  | S k => String "[" (brackets k)
  end.

Definition deep_array : string := brackets (S (S (2 ^ 17))).

(** A callback that fails with a decoding error of its own. *)
Definition decoding_sink : sink := fun _ _ => Some (JSONDecodeError "Extra data").

End Fixtures.

Example hello_is_batched :
  pipe Json.loads (Some Fixtures.accepting_sink) Fixtures.frozen_clock
       (Fixtures.serve [Fixtures.frame_He; Fixtures.frame_llo; Fixtures.frame_done] None)
       Fixtures.valves
  = mkOutcome (Ok "") [Message "Hello"] [build_request Fixtures.valves].
Proof. vm_compute. reflexivity. Qed.

Example status_follows_tokens :
  sink_calls
    (pipe Json.loads (Some Fixtures.accepting_sink) Fixtures.frozen_clock
          (Fixtures.serve [Fixtures.frame_He; "event: status"; Fixtures.frame_status;
                           Fixtures.frame_llo] None)
          Fixtures.valves)
  = [Message "He";
     Status (PDict [("phase", PStr "searching")]);
     Message "llo"].
Proof. vm_compute. reflexivity. Qed.

Example http_error_is_reported :
  returned
    (pipe Json.loads None Fixtures.frozen_clock
          (fun _ => Response 503 [Fixtures.frame_He] None) Fixtures.valves)
  = Ok "Error: HTTP 503".
Proof. vm_compute. reflexivity. Qed.

(** The test of line 232 is the binary64 one: 0.05 less seven times 2^-61
    rounds back to 0.05, so a frame that arrives that long after the timer
    was set is flushed although fewer than 50 ms have passed. *)
Example window_test_rounds :
  PrimFloat.leb FLUSH_INTERVAL (PrimFloat.sub FLUSH_INTERVAL 0x1.cp-59) = true.
Proof. vm_compute. reflexivity. Qed.

(** The decoder's limits: 994 nested arrays are only malformed, 995 exhaust
    the interpreter's stack; an integer of 4301 digits is refused. *)
Example nesting_limit :
  Json.loads (Fixtures.brackets 994) = Raise (JSONDecodeError "Expecting value")
  /\ Json.loads (Fixtures.brackets 995) = Raise (Json.exn_of_failure (Json.TooDeep "array")).
Proof. split; vm_compute; reflexivity. Qed.

Example digits_limit :
  (exists n, Json.loads (String "1" (PyStr.of_Z (10 ^ 4298))) = Ok (PInt n))
  /\ Json.loads (String "1" (PyStr.of_Z (10 ^ 4299)))
     = Raise (Json.exn_of_failure (Json.TooManyDigits 4301)).
Proof. split; [eexists|]; vm_compute; reflexivity. Qed.

(** ** The flush *)

Lemma flush_buffer_empty (em : option sink) (clock : nat -> float) (s : relay_state) :
  token_buffer s = "" -> flush_buffer em clock s = (Ok tt, s).
Proof.
  intros Hb. unfold flush_buffer, bind, gets. simpl. rewrite Hb.
  destruct em; reflexivity.
Qed.

Lemma flush_buffer_no_sink (clock : nat -> float) (s : relay_state) :
  flush_buffer None clock s = (Ok tt, s).
Proof. unfold flush_buffer, bind, gets. simpl. now rewrite andb_false_r. Qed.

(** Without a callback a decoded frame is only asked for its [choices]. *)
Lemma handle_data_no_sink (clock : nat -> float) (data : pyval) (s : relay_state) :
  handle_data None clock data s
  = match Py.get data "choices" PNone with
    | Ok _ => (Ok tt, s)
    | Raise e => (Raise e, s)
    end.
Proof.
  unfold handle_data, bind, gets, lift. simpl. rewrite !andb_false_r.
  destruct (Py.get data "choices" PNone) as [c | e]; [| reflexivity].
  now rewrite andb_false_r.
Qed.

(** With a callback and text in the buffer: the call, and when it returns
    the buffer is cleared and the timer reset. *)
Lemma flush_buffer_sends (f : sink) (clock : nat -> float) (s : relay_state) :
  PyStr.nonempty (token_buffer s) = true ->
  flush_buffer (Some f) clock s =
    match f (emitted s) (Message (token_buffer s)) with
    | None =>
        (Ok tt,
         mkState (current_event s) "" (clock (ticks s))
                 (emitted s ++ [Message (token_buffer s)])%list (S (ticks s)))
    | Some e =>
        (Raise e,
         mkState (current_event s) (token_buffer s) (last_flush s)
                 (emitted s ++ [Message (token_buffer s)])%list (ticks s))
    end.
Proof.
  intros Hb. unfold flush_buffer, bind, gets. simpl. rewrite Hb.
  unfold await_emitter. simpl.
  destruct (f (emitted s) (Message (token_buffer s))); reflexivity.
Qed.

Lemma nonempty_false (b : string) : PyStr.nonempty b = false -> b = "".
Proof. destruct b; [reflexivity | discriminate]. Qed.

(** A flush makes the pending call or none. *)
Lemma flush_buffer_emitted (em : option sink) (clock : nat -> float) (s : relay_state) :
  emitted (snd (flush_buffer em clock s))
  = (emitted s ++ match em with Some _ => pending_message s | None => [] end)%list.
Proof.
  destruct em as [f|].
  - unfold pending_message. destruct (PyStr.nonempty (token_buffer s)) eqn:Hb.
    + rewrite (flush_buffer_sends f clock s Hb).
      destruct (f (emitted s) (Message (token_buffer s))); reflexivity.
    + rewrite flush_buffer_empty by (apply nonempty_false; exact Hb).
      simpl. now rewrite app_nil_r.
  - rewrite flush_buffer_no_sink. simpl. now rewrite app_nil_r.
Qed.

(** After a flush that returned, a callback finds the buffer empty. *)
Lemma flush_buffer_clears (f : sink) (clock : nat -> float) (s s1 : relay_state) :
  flush_buffer (Some f) clock s = (Ok tt, s1) -> token_buffer s1 = "".
Proof.
  destruct (PyStr.nonempty (token_buffer s)) eqn:Hb.
  - rewrite (flush_buffer_sends f clock s Hb).
    destruct (f (emitted s) (Message (token_buffer s))); [discriminate |].
    intros H. injection H as <-. reflexivity.
  - rewrite flush_buffer_empty by (apply nonempty_false; exact Hb).
    intros H. injection H as <-. apply nonempty_false; exact Hb.
Qed.

(** C6. Flush is idempotent: two flushes in a row are one flush (the second
    finds nothing to send and changes nothing); one flush calls the sink at
    most once, with the buffered text; and a flush of an empty buffer makes
    no call and leaves every variable, [last_flush] included, as it was.
    This is the one [flush_buffer] of the source, the final flush included. *)
Theorem flush_buffer_idempotent (em : option sink) (clock : nat -> float) (s : relay_state) :
  (flush_buffer em clock ;; flush_buffer em clock) s = flush_buffer em clock s
  /\ (exists evs,
        emitted (snd (flush_buffer em clock s)) = (emitted s ++ evs)%list
        /\ (evs = [] \/ evs = [Message (token_buffer s)]))
  /\ (forall tag last evs n,
        flush_buffer em clock (mkState tag "" last evs n)
        = (Ok tt, mkState tag "" last evs n)).
Proof.
  split; [| split].
  - unfold bind at 1.
    destruct (flush_buffer em clock s) as [[[] | e] s1] eqn:H1; [| reflexivity].
    destruct em as [f|].
    + apply flush_buffer_empty. eapply flush_buffer_clears; exact H1.
    + apply flush_buffer_no_sink.
  - rewrite flush_buffer_emitted.
    destruct em; [| eauto].
    unfold pending_message. destruct (PyStr.nonempty (token_buffer s)); eauto.
  - intros. apply flush_buffer_empty. reflexivity.
Qed.

(** ** Classification of a line *)

Lemma startswith_nil (d : string) : PyStr.startswith "" d = true.
Proof. destruct d; reflexivity. Qed.

Section LineFacts.

Variable json_loads : string -> result pyval.
Variable em : option sink.
Variable clock : nat -> float.

(** What the loop does with a data line, sentinel apart. *)
Lemma process_line_data (raw d : string) (s : relay_state) :
  PyStr.strip raw = "data: " ++ d ->
  String.eqb d "[DONE]" = false ->
  process_line json_loads em clock raw s =
    (try_except
       (data <- lift (json_loads d) ;;
        handle_data em clock data ;;
        set_current_event None)
       is_JSONDecodeError
       (set_current_event None) ;;
     ret Continue) s.
Proof.
  intros Hraw Hd. unfold process_line.
  rewrite Hraw. simpl. rewrite startswith_nil, Hd. reflexivity.
Qed.

Lemma process_line_done (raw : string) (s : relay_state) :
  PyStr.strip raw = "data: [DONE]" ->
  process_line json_loads em clock raw s = (flush_buffer em clock ;; ret Break) s.
Proof.
  intros Hraw. unfold process_line.
  rewrite Hraw. reflexivity.
Qed.

Lemma process_line_event (raw t : string) (s : relay_state) :
  PyStr.strip raw = "event: " ++ t ->
  process_line json_loads em clock raw s
  = (Ok Continue,
     mkState (Some (PyStr.strip t)) (token_buffer s) (last_flush s)
             (emitted s) (ticks s)).
Proof.
  intros Hraw. unfold process_line.
  rewrite Hraw. simpl. rewrite startswith_nil. reflexivity.
Qed.

(** A line that is neither kind, once stripped, is passed over. *)
Lemma process_line_other (raw : string) (s : relay_state) :
  PyStr.startswith "event: " (PyStr.strip raw) = false ->
  PyStr.startswith "data: " (PyStr.strip raw) = false ->
  process_line json_loads em clock raw s = (Ok Continue, s).
Proof.
  intros He Hd. unfold process_line.
  rewrite He, Hd. destruct (negb (PyStr.nonempty (PyStr.strip raw))); reflexivity.
Qed.

Lemma stream_loop_cons (raw : string) (rest : list string) (s s1 : relay_state) :
  process_line json_loads em clock raw s = (Ok Continue, s1) ->
  stream_loop json_loads em clock (raw :: rest) s
  = stream_loop json_loads em clock rest s1.
Proof.
  intros H. simpl. unfold bind at 1. rewrite H. reflexivity.
Qed.

End LineFacts.

(** A payload on which the decoder raises anything but [JSONDecodeError]
    is not skipped: the exception leaves the iteration, with the state as it
    was. *)
Lemma other_decoder_error_is_raised
    (json_loads : string -> result pyval) (em : option sink) (clock : nat -> float)
    (raw d : string) (e : exn) (s : relay_state) :
  PyStr.strip raw = "data: " ++ d ->
  d <> "[DONE]" ->
  json_loads d = Raise e ->
  is_JSONDecodeError e = false ->
  process_line json_loads em clock raw s = (Raise e, s).
Proof.
  intros Hraw Hd Hj He.
  rewrite (process_line_data json_loads em clock raw d s Hraw)
    by (apply String.eqb_neq; exact Hd).
  unfold bind, try_except, lift. rewrite Hj, He. reflexivity.
Qed.

Lemma rstrip_cons (c : ascii) (r : string) :
  PyStr.rstrip (String c r)
  = match PyStr.rstrip r with
    | EmptyString => if PyStr.isspace c then EmptyString else String c EmptyString
    | r' => String c r'
    end.
Proof. reflexivity. Qed.

Lemma rstrip_brackets (n : nat) :
  PyStr.rstrip (Fixtures.brackets (S n)) = Fixtures.brackets (S n).
Proof.
  induction n as [| n IH].
  - reflexivity.
  - change (Fixtures.brackets (S (S n))) with (String "[" (Fixtures.brackets (S n))).
    rewrite rstrip_cons, IH. reflexivity.
Qed.

Lemma strip_data_brackets (n : nat) :
  PyStr.strip ("data: " ++ Fixtures.brackets (S n)) = "data: " ++ Fixtures.brackets (S n).
Proof.
  unfold PyStr.strip.
  change (PyStr.lstrip ("data: " ++ Fixtures.brackets (S n)))
    with ("data: " ++ Fixtures.brackets (S n)).
  change ("data: " ++ Fixtures.brackets (S n))
    with (String "d" (String "a" (String "t" (String "a" (String ":" (String " "
            (String "[" (Fixtures.brackets n)))))))).
  do 6 rewrite rstrip_cons.
  change (String "[" (Fixtures.brackets n)) with (Fixtures.brackets (S n)).
  rewrite rstrip_brackets. reflexivity.
Qed.

Lemma brackets_not_done (n : nat) : Fixtures.brackets (S (S n)) <> "[DONE]".
Proof. simpl. discriminate. Qed.

(** C4, as stated, fails: not every payload that fails to parse fails with
    [JSONDecodeError]. On arrays nested beyond the interpreter's limit
    [json.loads] raises [RecursionError], which the handler of line 235 does
    not catch: the iteration raises and the stream is over. *)
Lemma unparsable_payload_ends_stream :
  ~ (forall (em : option sink) (clock : nat -> float) (raw d : string) (e : exn)
            (s : relay_state),
        PyStr.strip raw = "data: " ++ d ->
        d <> "[DONE]" ->
        Json.loads d = Raise e ->
        fst (process_line Json.loads em clock raw s) = Ok Continue).
Proof.
  intros H.
  assert (Hj : Json.loads Fixtures.deep_array
               = Raise (Json.exn_of_failure (Json.TooDeep "array")))
    by (vm_compute; reflexivity).
  assert (Hraw : PyStr.strip ("data: " ++ Fixtures.deep_array)
                 = "data: " ++ Fixtures.deep_array)
    by apply strip_data_brackets.
  assert (Hd : Fixtures.deep_array <> "[DONE]")
    by apply brackets_not_done.
  specialize (H None Fixtures.frozen_clock
                ("data: " ++ Fixtures.deep_array) Fixtures.deep_array _
                Fixtures.fresh Hraw Hd Hj).
  rewrite (other_decoder_error_is_raised Json.loads None Fixtures.frozen_clock
             ("data: " ++ Fixtures.deep_array) Fixtures.deep_array _
             Fixtures.fresh Hraw Hd Hj eq_refl) in H.
  discriminate H.
Qed.

(** C4, amended. A data line whose payload [json.loads] rejects with
    [JSONDecodeError] makes no sink call and raises nothing: the iteration
    ends normally with the tag cleared and the buffer and timer as they were,
    and the loop goes on with the remaining lines from that state. *)
Theorem malformed_frame_is_skipped
    (json_loads : string -> result pyval) (em : option sink) (clock : nat -> float)
    (raw d msg : string) (rest : list string) (s : relay_state) :
  PyStr.strip raw = "data: " ++ d ->
  d <> "[DONE]" ->
  json_loads d = Raise (JSONDecodeError msg) ->
  process_line json_loads em clock raw s = (Ok Continue, clear_tag s)
  /\ emitted (clear_tag s) = emitted s
  /\ stream_loop json_loads em clock (raw :: rest) s
     = stream_loop json_loads em clock rest (clear_tag s).
Proof.
  intros Hraw Hd Hj.
  assert (Hp : process_line json_loads em clock raw s = (Ok Continue, clear_tag s)).
  { rewrite (process_line_data json_loads em clock raw d s Hraw)
      by (apply String.eqb_neq; exact Hd).
    unfold bind, try_except, lift. rewrite Hj. reflexivity. }
  split; [exact Hp | split; [reflexivity |]].
  apply stream_loop_cons. exact Hp.
Qed.

Lemma malformed_frame_is_skipped_witness :
  Json.loads "{bad" = Raise (JSONDecodeError "Expecting value")
  /\ stream_loop Json.loads (Some Fixtures.accepting_sink) Fixtures.frozen_clock
       [Fixtures.frame_bad; Fixtures.frame_He; Fixtures.frame_done]
       (mkState (Some "status") "" 0 [] 1)
     = stream_loop Json.loads (Some Fixtures.accepting_sink) Fixtures.frozen_clock
         [Fixtures.frame_He; Fixtures.frame_done]
         (mkState None "" 0 [] 1).
Proof.
  split; [reflexivity |].
  apply (malformed_frame_is_skipped Json.loads (Some Fixtures.accepting_sink)
           Fixtures.frozen_clock Fixtures.frame_bad "{bad" "Expecting value"
           [Fixtures.frame_He; Fixtures.frame_done] (mkState (Some "status") "" 0 [] 1)).
  - reflexivity.
  - discriminate.
  - reflexivity.
Defined.

(** The prefixes are looked for in the stripped line (line 209): a tag line
    padded with blanks sets the tag like the bare one. *)
Example padded_tag_line_sets_the_tag :
  process_line Json.loads None Fixtures.frozen_clock "  event: status " Fixtures.fresh
  = process_line Json.loads None Fixtures.frozen_clock "event: status" Fixtures.fresh
  /\ current_event
       (snd (process_line Json.loads None Fixtures.frozen_clock "  event: status "
                          Fixtures.fresh))
     = Some "status".
Proof. split; reflexivity. Qed.

(** C9. Lines are classified once stripped of surrounding whitespace, as
    the relay reads them. A line that then starts with neither [event: ] nor
    [data: ] leaves the tag, the buffer, the timer and the sink untouched and
    the loop goes on; so does an empty line. *)
Theorem other_line_is_ignored
    (json_loads : string -> result pyval) (em : option sink) (clock : nat -> float)
    (raw : string) (s : relay_state) :
  PyStr.startswith "event: " (PyStr.strip raw) = false ->
  PyStr.startswith "data: " (PyStr.strip raw) = false ->
  process_line json_loads em clock raw s = (Ok Continue, s)
  /\ process_line json_loads em clock "" s = (Ok Continue, s).
Proof.
  intros He Hd. split.
  - apply process_line_other; assumption.
  - reflexivity.
Qed.

Lemma other_line_is_ignored_witness :
  process_line Json.loads (Some Fixtures.accepting_sink) Fixtures.frozen_clock
    "  retry: 3000 " (mkState (Some "status") "He" 0 [] 1)
  = (Ok Continue, mkState (Some "status") "He" 0 [] 1).
Proof.
  apply (other_line_is_ignored Json.loads (Some Fixtures.accepting_sink)
           Fixtures.frozen_clock "  retry: 3000 "
           (mkState (Some "status") "He" 0 [] 1)); reflexivity.
Defined.

(** ** The boundary of the coroutine *)

(** C7. With an empty endpoint URL or an empty API key [pipe] returns the
    matching configuration error at once, the URL being looked at first: the
    transport is never called, and the sink neither. *)
Theorem missing_configuration_is_reported_first
    (json_loads : string -> result pyval) (em : option sink) (clock : nat -> float)
    (transport : request -> transport_result) (v : Valves) :
  TOOLSET_API_URL v = "" \/ TOOLSET_API_KEY v = "" ->
  pipe json_loads em clock transport v
  = mkOutcome
      (Ok (if PyStr.nonempty (TOOLSET_API_URL v)
           then "Error: TOOLSET_API_KEY not configured"
           else "Error: TOOLSET_API_URL not configured"))
      [] [].
Proof.
  intros H. unfold pipe.
  destruct (TOOLSET_API_URL v) as [| c u] eqn:Hu; simpl.
  - reflexivity.
  - destruct H as [H | H]; [discriminate |]. rewrite H. reflexivity.
Qed.

Lemma missing_configuration_is_reported_first_witness :
  pipe Json.loads None Fixtures.frozen_clock
       (Fixtures.serve [Fixtures.frame_He] None) Fixtures.default_valves
  = mkOutcome (Ok "Error: TOOLSET_API_KEY not configured") [] [].
Proof.
  apply (missing_configuration_is_reported_first Json.loads None
           Fixtures.frozen_clock (Fixtures.serve [Fixtures.frame_He] None)
           Fixtures.default_valves).
  right. reflexivity.
Defined.

(** With both valves set, [pipe] makes its one request and hands what the
    [try] block did to the handlers. *)
Lemma pipe_configured
    (json_loads : string -> result pyval) (em : option sink) (clock : nat -> float)
    (transport : request -> transport_result) (v : Valves) :
  PyStr.nonempty (TOOLSET_API_URL v) = true ->
  PyStr.nonempty (TOOLSET_API_KEY v) = true ->
  pipe json_loads em clock transport v
  = let '(r, s) :=
      match transport (build_request v) with
      | StreamRaises e => (Raise e, initial_state)
      | Response code lines ending =>
          relay_response json_loads em clock code lines ending initial_state
      end in
    mkOutcome match r with Ok _ => Ok "" | Raise e => handlers v e end
              (emitted s) [build_request v].
Proof.
  intros Hu Hk. unfold pipe. rewrite Hu, Hk. reflexivity.
Qed.

(** C8, as stated, fails: whatever the phase of the timeout, [pipe] returns
    one and the same string. *)
Lemma timeout_phases_are_not_told_apart :
  ~ (forall p1 p2 : timeout_phase,
        p1 <> p2 ->
        returned (pipe Json.loads None Fixtures.frozen_clock
                       (fun _ => StreamRaises (TimeoutException p1)) Fixtures.valves)
        <> returned (pipe Json.loads None Fixtures.frozen_clock
                          (fun _ => StreamRaises (TimeoutException p2)) Fixtures.valves)).
Proof.
  intros H. apply (H ConnectPhase ReadPhase); [discriminate | reflexivity].
Qed.

(** C8, amended. A timeout of any phase (connect, read, write, pool),
    raised on entering the stream or anywhere in the streaming block, is
    reported by the single value [Error: Request timed out], which names no
    phase. *)
Theorem timeout_is_reported_uniformly
    (json_loads : string -> result pyval) (em : option sink) (clock : nat -> float)
    (transport : request -> transport_result) (v : Valves) (p : timeout_phase) :
  PyStr.nonempty (TOOLSET_API_URL v) = true ->
  PyStr.nonempty (TOOLSET_API_KEY v) = true ->
  (transport (build_request v) = StreamRaises (TimeoutException p)
   \/ exists code lines ending,
        transport (build_request v) = Response code lines ending
        /\ fst (relay_response json_loads em clock code lines ending initial_state)
           = Raise (TimeoutException p)) ->
  returned (pipe json_loads em clock transport v) = Ok "Error: Request timed out".
Proof.
  intros Hu Hk H. rewrite (pipe_configured _ _ _ _ _ Hu Hk).
  destruct H as [H | (code & lines & ending & H & Hr)]; rewrite H.
  - reflexivity.
  - destruct (relay_response json_loads em clock code lines ending initial_state)
      as [r s]. simpl in Hr. subst r. reflexivity.
Qed.

Lemma timeout_is_reported_uniformly_witness :
  returned
    (pipe Json.loads (Some Fixtures.accepting_sink) Fixtures.frozen_clock
          (Fixtures.serve [Fixtures.frame_He] (Some (TimeoutException ReadPhase)))
          Fixtures.valves)
  = Ok "Error: Request timed out".
Proof.
  apply (timeout_is_reported_uniformly Json.loads (Some Fixtures.accepting_sink)
           Fixtures.frozen_clock
           (Fixtures.serve [Fixtures.frame_He] (Some (TimeoutException ReadPhase)))
           Fixtures.valves ReadPhase).
  - reflexivity.
  - reflexivity.
  - right. exists 200%Z, [Fixtures.frame_He], (Some (TimeoutException ReadPhase)).
    split; [reflexivity | vm_compute; reflexivity].
Defined.

(** ** Which exceptions leave the streaming block *)

Lemma reo_ret {A} (a : A) : raises_Exception_only (ret a).
Proof. intros s e s' H. discriminate H. Qed.

Lemma reo_gets {A} (f : relay_state -> A) : raises_Exception_only (gets f).
Proof. intros s e s' H. discriminate H. Qed.

Lemma reo_modify (f : relay_state -> relay_state) : raises_Exception_only (modify f).
Proof. intros s e s' H. discriminate H. Qed.

Lemma reo_raise {A} (e : exn) :
  is_Exception e = true -> raises_Exception_only (@raise A e).
Proof. intros He s e' s' H. injection H as <- _. exact He. Qed.

Lemma reo_lift {A} (r : result A) :
  (forall e, r = Raise e -> is_Exception e = true) ->
  raises_Exception_only (lift r).
Proof. intros Hr s e s' H. injection H as H _. apply Hr. exact H. Qed.

Lemma reo_bind {A B} (m : M A) (k : A -> M B) :
  raises_Exception_only m ->
  (forall a, raises_Exception_only (k a)) ->
  raises_Exception_only (bind m k).
Proof.
  intros Hm Hk s e s' H. unfold bind in H.
  destruct (m s) as [[a | e1] s1] eqn:Hms.
  - eapply Hk; exact H.
  - injection H as <- _. eapply Hm; exact Hms.
Qed.

Lemma reo_try_except {A} (m h : M A) (catches : exn -> bool) :
  raises_Exception_only m ->
  raises_Exception_only h ->
  raises_Exception_only (try_except m catches h).
Proof.
  intros Hm Hh s e s' H. unfold try_except in H.
  destruct (m s) as [[a | e1] s1] eqn:Hms; [discriminate |].
  destruct (catches e1).
  - eapply Hh; exact H.
  - injection H as <- _. eapply Hm; exact Hms.
Qed.

Lemma reo_monotonic (clock : nat -> float) : raises_Exception_only (monotonic clock).
Proof. intros s e s' H. discriminate H. Qed.

Lemma reo_await (em : option sink) (f : sink) (ev : event) :
  sink_raises_Exception_only em -> em = Some f ->
  raises_Exception_only (await_emitter f ev).
Proof.
  intros Hs Hf s e s' H. unfold await_emitter in H.
  destruct (f (emitted s) ev) as [e1 |] eqn:Hc; [| discriminate].
  injection H as <- _. eapply Hs; eassumption.
Qed.

Lemma py_get_raises (v : pyval) (k : string) (d : pyval) (e : exn) :
  Py.get v k d = Raise e -> is_Exception e = true.
Proof. destruct v; simpl; intros H; try discriminate; injection H as <-; reflexivity. Qed.

Lemma py_item0_raises (v : pyval) (e : exn) :
  Py.item0 v = Raise e -> is_Exception e = true.
Proof.
  destruct v as [| | | | [| c t] | [| x l] |]; simpl; intros H;
    try discriminate; injection H as <-; reflexivity.
Qed.

Lemma py_str_concat_raises (b : string) (v : pyval) (e : exn) :
  Py.str_concat b v = Raise e -> is_Exception e = true.
Proof. destruct v; simpl; intros H; try discriminate; injection H as <-; reflexivity. Qed.

Create HintDb reo.
#[local] Hint Resolve reo_ret reo_gets reo_modify reo_monotonic reo_raise : reo.
#[local] Hint Resolve py_get_raises py_item0_raises py_str_concat_raises : reo.

Ltac reo_step :=
  first
    [ solve [eauto with reo]
    | apply reo_bind; [| intros ?]
    | apply reo_try_except
    | apply reo_lift; intros ? ?; solve [discriminate | eauto with reo]
    | match goal with
      | |- raises_Exception_only (if ?c then _ else _) => destruct c
      end ].

Section Raised.

Variable json_loads : string -> result pyval.
Variable em : option sink.
Variable clock : nat -> float.

Hypothesis loads_ok : forall d e, json_loads d = Raise e -> is_Exception e = true.
Hypothesis sink_ok : sink_raises_Exception_only em.

Lemma reo_await_event_emitter (ev : event) :
  raises_Exception_only (await_event_emitter em ev).
Proof.
  destruct em as [f |] eqn:Hf; simpl.
  - eapply reo_await; [exact sink_ok | reflexivity].
  - apply reo_raise. reflexivity.
Qed.

Lemma reo_flush_buffer : raises_Exception_only (flush_buffer em clock).
Proof.
  pose proof reo_await_event_emitter as Haw.
  unfold flush_buffer. apply reo_bind; [auto with reo | intros buf].
  destruct (PyStr.nonempty buf && registered em); [| auto with reo].
  repeat reo_step; auto.
Qed.

Lemma reo_handle_data (data : pyval) :
  raises_Exception_only (handle_data em clock data).
Proof.
  pose proof reo_flush_buffer as Hfl.
  pose proof reo_await_event_emitter as Haw.
  unfold handle_data. apply reo_bind; [auto with reo | intros tag].
  repeat reo_step; auto.
Qed.

Lemma reo_process_line (raw : string) :
  raises_Exception_only (process_line json_loads em clock raw).
Proof.
  pose proof reo_flush_buffer as Hfl. pose proof reo_handle_data as Hhd.
  unfold process_line, set_current_event.
  repeat reo_step; auto.
Qed.

Lemma reo_stream_loop (lines : list string) :
  raises_Exception_only (stream_loop json_loads em clock lines).
Proof.
  induction lines as [| l rest IH]; simpl.
  - auto with reo.
  - apply reo_bind; [apply reo_process_line | intros [|]]; auto with reo.
Qed.

Lemma reo_relay_response (code : Z) (lines : list string) (ending : option exn) :
  (forall e, ending = Some e -> is_Exception e = true) ->
  raises_Exception_only (relay_response json_loads em clock code lines ending).
Proof.
  intros Hend. pose proof reo_flush_buffer as Hfl.
  pose proof reo_stream_loop as Hloop.
  unfold relay_response, relay_body, set_current_event, set_token_buffer,
    set_last_flush.
  assert (Hst : forall e, raise_for_status code = Raise e -> is_Exception e = true).
  { unfold raise_for_status. intros e.
    destruct ((200 <=? code)%Z && (code <=? 299)%Z); intros H;
      [discriminate | injection H as <-; reflexivity]. }
  repeat reo_step; auto.
  destruct ending as [e |]; [apply reo_raise, Hend; reflexivity | auto with reo].
Qed.

End Raised.

Lemma handlers_of_Exception (v : Valves) (e : exn) :
  is_Exception e = true ->
  exists s, handlers v e = Ok s /\ PyStr.startswith "Error: " s = true.
Proof.
  intros He. destruct e; simpl in *; try discriminate;
    eexists; (split; [reflexivity |]); simpl; try reflexivity;
    apply startswith_nil.
Qed.

Lemma json_loads_raises (d : string) (e : exn) :
  Json.loads d = Raise e -> is_Exception e = true.
Proof.
  unfold Json.loads, Json.decode.
  destruct (Json.scan_value _ _ _ _) as [v r | why];
    [destruct (Json.skip_ws r) | destruct why];
    intros H; try discriminate; injection H as <-; reflexivity.
Qed.

(** C5, as stated, fails: an exception outside [Exception], such as the
    [CancelledError] of a cancelled task, meets no handler and leaves [pipe];
    the text in the buffer is dropped. *)
Lemma cancellation_leaves_pipe :
  ~ (forall (json_loads : string -> result pyval) (em : option sink)
            (clock : nat -> float) (transport : request -> transport_result)
            (v : Valves),
        exists s, returned (pipe json_loads em clock transport v) = Ok s).
Proof.
  intros H.
  destruct (H Json.loads (Some Fixtures.accepting_sink) Fixtures.frozen_clock
              (Fixtures.serve [Fixtures.frame_He]
                              (Some (PyBaseException "CancelledError")))
              Fixtures.valves) as [s Hs].
  vm_compute in Hs. discriminate Hs.
Qed.

(** C5, amended. When every exception raised by the transport, the decoder
    and the sink is an instance of [Exception], [pipe] returns one value and
    raises nothing: the empty string, or a string that starts with
    [Error: ]. *)
Theorem pipe_returns_one_terminal_value
    (json_loads : string -> result pyval) (em : option sink) (clock : nat -> float)
    (transport : request -> transport_result) (v : Valves) :
  (forall d e, json_loads d = Raise e -> is_Exception e = true) ->
  sink_raises_Exception_only em ->
  transport_raises_Exception_only transport ->
  exists s,
    returned (pipe json_loads em clock transport v) = Ok s
    /\ (s = "" \/ PyStr.startswith "Error: " s = true).
Proof.
  intros Hloads Hsink Htr.
  destruct (PyStr.nonempty (TOOLSET_API_URL v)) eqn:Hu;
    [destruct (PyStr.nonempty (TOOLSET_API_KEY v)) eqn:Hk |].
  - rewrite (pipe_configured _ _ _ _ _ Hu Hk).
    destruct (transport (build_request v)) as [e | code lines ending] eqn:Ht.
    + simpl. destruct (handlers_of_Exception v e) as (s & Hs & Hp).
      { eapply (proj1 (Htr _ e)); exact Ht. }
      exists s. auto.
    + destruct (relay_response json_loads em clock code lines ending initial_state)
        as [[[] | e] s1] eqn:Hr; simpl.
      * exists "". auto.
      * destruct (handlers_of_Exception v e) as (s & Hs & Hp).
        { eapply (reo_relay_response json_loads em clock Hloads Hsink);
            [| exact Hr].
          intros e' ->. eapply (proj2 (Htr _ e')); exact Ht. }
        exists s. auto.
  - unfold pipe. rewrite Hu, Hk. simpl. eexists; split; [reflexivity | auto].
  - unfold pipe. rewrite Hu. simpl. eexists; split; [reflexivity | auto].
Qed.

Lemma pipe_returns_one_terminal_value_witness :
  exists s,
    returned
      (pipe Json.loads (Some Fixtures.accepting_sink) Fixtures.frozen_clock
            (Fixtures.serve [Fixtures.frame_He; Fixtures.frame_choices_true]
                            (Some ConnectError))
            Fixtures.valves) = Ok s
    /\ (s = "" \/ PyStr.startswith "Error: " s = true).
Proof.
  apply (pipe_returns_one_terminal_value Json.loads (Some Fixtures.accepting_sink)
           Fixtures.frozen_clock
           (Fixtures.serve [Fixtures.frame_He; Fixtures.frame_choices_true]
                           (Some ConnectError))
           Fixtures.valves).
  - exact json_loads_raises.
  - intros f h ev e Hf. injection Hf as <-. discriminate.
  - intros req e. split.
    + discriminate.
    + intros code lines H. injection H as _ _ <-. reflexivity.
Defined.

(** ** Token frames and the timer *)

(** A token frame for which the test of line 232 is false, computed in
    binary64 as the code computes it, is appended to the buffer and nothing
    is sent. *)
Lemma process_line_token_buffered
    (json_loads : string -> result pyval) (f : sink) (clock : nat -> float)
    (raw d c : string) (v : pyval) (s : relay_state) :
  PyStr.strip raw = "data: " ++ d ->
  d <> "[DONE]" ->
  json_loads d = Ok v ->
  token_frame v c ->
  PyStr.nonempty c = true ->
  tag_is "status" (current_event s) = false ->
  tag_is "source" (current_event s) = false ->
  PrimFloat.leb FLUSH_INTERVAL (PrimFloat.sub (clock (ticks s)) (last_flush s)) = false ->
  process_line json_loads (Some f) clock raw s
  = (Ok Continue,
     mkState None (token_buffer s ++ c) (last_flush s) (emitted s) (S (ticks s))).
Proof.
  intros Hraw Hd Hj (choices & first & delta & Hc & Ht & Hi & Hde & Hco)
         Hne Hst Hso Hwin.
  rewrite (process_line_data json_loads (Some f) clock raw d s Hraw)
    by (apply String.eqb_neq; exact Hd).
  unfold bind, try_except, lift, handle_data, gets, bind, lift.
  rewrite Hj. simpl. rewrite Hst, Hso, Hc, Ht, Hi, Hde, Hco. simpl.
  rewrite Hne. simpl. rewrite Hwin. reflexivity.
Qed.



(** ** Status and citation frames *)

(** Under a [status] or [source] tag with a callback registered, the frame
    is handled by: flush, read the [data] field, call the sink. *)
Lemma handle_data_tagged
    (f : sink) (clock : nat -> float) (v : pyval) (tag : string)
    (mk : pyval -> event) (s : relay_state) :
  (tag = "status" /\ mk = Status) \/ (tag = "source" /\ mk = Citation) ->
  current_event s = Some tag ->
  handle_data (Some f) clock v s
  = (flush_buffer (Some f) clock ;;
     d <- lift (Py.get v "data" (PDict [])) ;;
     await_emitter f (mk d)) s.
Proof.
  intros H Hcur. unfold handle_data. unfold bind at 1, gets. rewrite Hcur.
  destruct H as [[-> ->] | [-> ->]]; reflexivity.
Qed.

(** The whole iteration for such a line, case by case. *)
Lemma process_line_tagged
    (json_loads : string -> result pyval) (f : sink) (clock : nat -> float)
    (raw d tag : string) (mk : pyval -> event) (v : pyval) (s : relay_state) :
  PyStr.strip raw = "data: " ++ d ->
  d <> "[DONE]" ->
  json_loads d = Ok v ->
  (tag = "status" /\ mk = Status) \/ (tag = "source" /\ mk = Citation) ->
  current_event s = Some tag ->
  process_line json_loads (Some f) clock raw s
  = let skipped (e : exn) (s' : relay_state) :=
      if is_JSONDecodeError e then (Ok Continue, clear_tag s') else (Raise e, s') in
    match flush_buffer (Some f) clock s with
    | (Raise e, s1) => skipped e s1
    | (Ok _, s1) =>
        match Py.get v "data" (PDict []) with
        | Raise e => skipped e s1
        | Ok dat =>
            let s2 := mkState (current_event s1) (token_buffer s1) (last_flush s1)
                              (emitted s1 ++ [mk dat])%list (ticks s1) in
            match f (emitted s1) (mk dat) with
            | None => (Ok Continue, clear_tag s2)
            | Some e => skipped e s2
            end
        end
    end.
Proof.
  intros Hraw Hd Hj Htag Hcur.
  rewrite (process_line_data json_loads (Some f) clock raw d s Hraw)
    by (apply String.eqb_neq; exact Hd).
  unfold bind at 1, try_except, bind at 1, lift at 1. rewrite Hj.
  unfold bind at 1.
  rewrite (handle_data_tagged f clock v tag mk s Htag Hcur).
  unfold bind, lift, await_emitter.
  destruct (flush_buffer (Some f) clock s) as [[[] | e] s1].
  - destruct (Py.get v "data" (PDict [])) as [dat | e].
    + destruct (f (emitted s1) (mk dat)) as [e |];
        [destruct (is_JSONDecodeError e) |]; reflexivity.
    + destruct (is_JSONDecodeError e); reflexivity.
  - destruct (is_JSONDecodeError e); reflexivity.
Qed.

(** C2. A data line handled under the tag [status] (or [source]) with a
    callback registered: the sink calls of that iteration are the [Message]
    owed for the text buffered by earlier frames, if any, followed by at most
    the [Status] (or [Citation]) event, in this order, whatever the sink and
    the payload do. When the payload is a dictionary and the sink returns from
    its calls, the event is sent, carries the [data] field (or an empty
    dictionary), and the iteration ends with the buffer empty and the tag
    cleared. *)
Theorem status_follows_pending_tokens
    (json_loads : string -> result pyval) (f : sink) (clock : nat -> float)
    (raw d tag : string) (mk : pyval -> event) (v : pyval) (s : relay_state) :
  PyStr.strip raw = "data: " ++ d ->
  d <> "[DONE]" ->
  json_loads d = Ok v ->
  (tag = "status" /\ mk = Status) \/ (tag = "source" /\ mk = Citation) ->
  current_event s = Some tag ->
  (exists tail,
      emitted (snd (process_line json_loads (Some f) clock raw s))
      = (emitted s ++ pending_message s ++ tail)%list
      /\ (tail = [] \/ exists data, tail = [mk data]))
  /\ (forall kv,
        v = PDict kv ->
        (forall h ev, f h ev = None) ->
        fst (process_line json_loads (Some f) clock raw s) = Ok Continue
        /\ emitted (snd (process_line json_loads (Some f) clock raw s))
           = (emitted s ++ pending_message s
                ++ [mk match Py.lookup "data" kv with
                       | Some x => x
                       | None => PDict []
                       end])%list
        /\ token_buffer (snd (process_line json_loads (Some f) clock raw s)) = ""
        /\ current_event (snd (process_line json_loads (Some f) clock raw s)) = None).
Proof.
  intros Hraw Hd Hj Htag Hcur.
  rewrite (process_line_tagged json_loads f clock raw d tag mk v s
             Hraw Hd Hj Htag Hcur).
  cbv zeta.
  pose proof (flush_buffer_emitted (Some f) clock s) as Hem.
  destruct (flush_buffer (Some f) clock s) as [[[] | e] s1] eqn:Hfl; simpl in Hem.
  - pose proof (flush_buffer_clears f clock s s1 Hfl) as Hclr.
    split.
    + destruct (Py.get v "data" (PDict [])) as [dat | e].
      * exists [mk dat]. split; [| right; eauto].
        destruct (f (emitted s1) (mk dat)) as [e |]; simpl;
          [destruct (is_JSONDecodeError e) |]; simpl; rewrite Hem;
          now rewrite <- app_assoc.
      * exists []. split; [| auto].
        destruct (is_JSONDecodeError e); simpl; rewrite Hem; now rewrite app_nil_r.
    + intros kv -> Hf. simpl. rewrite Hf. simpl.
      rewrite Hem, Hclr, <- app_assoc. auto.
  - split.
    + exists []. split; [| auto].
      destruct (is_JSONDecodeError e); simpl; rewrite Hem; now rewrite app_nil_r.
    + intros kv -> Hf. exfalso.
      destruct (PyStr.nonempty (token_buffer s)) eqn:Hb.
      * rewrite (flush_buffer_sends f clock s Hb), Hf in Hfl. discriminate.
      * rewrite flush_buffer_empty in Hfl by (apply nonempty_false; exact Hb).
        discriminate.
Qed.

Lemma status_follows_pending_tokens_witness :
  emitted (snd (process_line Json.loads (Some Fixtures.accepting_sink)
                             Fixtures.frozen_clock Fixtures.frame_status
                             (mkState (Some "status") "He" 0 [] 2)))
  = [Message "He"; Status (PDict [("phase", PStr "searching")])].
Proof.
  destruct (status_follows_pending_tokens Json.loads Fixtures.accepting_sink
              Fixtures.frozen_clock Fixtures.frame_status
              (PyStr.q "{'data':{'phase':'searching'}}") "status" Status
              (PDict [("data", PDict [("phase", PStr "searching")])])
              (mkState (Some "status") "He" 0 [] 2)
              eq_refl) as [_ H].
  - discriminate.
  - reflexivity.
  - left. split; reflexivity.
  - reflexivity.
  - destruct (H [("data", PDict [("phase", PStr "searching")])] eq_refl)
      as (_ & He & _).
    + reflexivity.
    + exact He.
Defined.

(** ** The end of the stream *)

(** A good status: the three variables are initialised and the body runs. *)
Lemma relay_response_ok
    (json_loads : string -> result pyval) (em : option sink) (clock : nat -> float)
    (code : Z) (lines : list string) (ending : option exn) :
  (200 <= code <= 299)%Z ->
  relay_response json_loads em clock code lines ending initial_state
  = relay_body json_loads em clock lines ending (mkState None "" (clock 0%nat) [] 1).
Proof.
  intros [Hlo Hhi]. unfold relay_response, raise_for_status.
  apply Z.leb_le in Hlo. apply Z.leb_le in Hhi. rewrite Hlo, Hhi. reflexivity.
Qed.

(** Without a callback nothing is ever buffered or sent. *)
Lemma process_line_no_sink
    (json_loads : string -> result pyval) (clock : nat -> float)
    (raw : string) (s s1 : relay_state) (r : result control) :
  process_line json_loads None clock raw s = (r, s1) ->
  token_buffer s1 = token_buffer s /\ emitted s1 = emitted s.
Proof.
  unfold process_line.
  destruct (negb (PyStr.nonempty (PyStr.strip raw)));
    [intros H; injection H as _ <-; auto |].
  destruct (PyStr.startswith "event: " (PyStr.strip raw));
    [intros H; injection H as _ <-; auto |].
  destruct (PyStr.startswith "data: " (PyStr.strip raw));
    [| intros H; injection H as _ <-; auto].
  destruct (String.eqb _ "[DONE]");
    [unfold bind; rewrite flush_buffer_no_sink; intros H; injection H as _ <-; auto |].
  unfold bind, try_except, lift.
  destruct (json_loads _) as [v | e].
  - rewrite handle_data_no_sink.
    destruct (Py.get v "choices" PNone) as [c | e]; simpl;
      [| destruct (is_JSONDecodeError e)]; intros H; injection H as _ <-; auto.
  - destruct (is_JSONDecodeError e); simpl; intros H; injection H as _ <-; auto.
Qed.

Lemma stream_loop_no_sink
    (json_loads : string -> result pyval) (clock : nat -> float)
    (lines : list string) (s s1 : relay_state) (r : result control) :
  stream_loop json_loads None clock lines s = (r, s1) ->
  token_buffer s1 = token_buffer s /\ emitted s1 = emitted s.
Proof.
  revert s. induction lines as [| l rest IH]; intros s; simpl.
  - intros H. injection H as _ <-. auto.
  - unfold bind.
    destruct (process_line json_loads None clock l s) as [[[|] | e] s2] eqn:Hp;
      apply process_line_no_sink in Hp; destruct Hp as [Hb He].
    + intros H. apply IH in H. destruct H as [Hb' He']. split; congruence.
    + intros H. injection H as _ <-. auto.
    + intros H. injection H as _ <-. auto.
Qed.

(** C3. A body that runs out of lines without the sentinel and without an
    exception is a normal end: after the loop the buffer is flushed once, which
    adds one last [Message] exactly when text is left in the buffer, and
    [pipe] returns the empty string (here the sink returns from that last
    call). *)
Theorem exhausted_stream_is_flushed_once
    (json_loads : string -> result pyval) (em : option sink) (clock : nat -> float)
    (transport : request -> transport_result) (v : Valves)
    (code : Z) (lines : list string) (s1 : relay_state) :
  PyStr.nonempty (TOOLSET_API_URL v) = true ->
  PyStr.nonempty (TOOLSET_API_KEY v) = true ->
  transport (build_request v) = Response code lines None ->
  (200 <= code <= 299)%Z ->
  stream_loop json_loads em clock lines (mkState None "" (clock 0%nat) [] 1)
  = (Ok Continue, s1) ->
  (forall f, em = Some f -> f (emitted s1) (Message (token_buffer s1)) = None) ->
  pipe json_loads em clock transport v
  = mkOutcome (Ok "") (emitted s1 ++ pending_message s1)%list [build_request v].
Proof.
  intros Hu Hk Ht Hcode Hloop Hsink.
  rewrite (pipe_configured _ _ _ _ _ Hu Hk), Ht.
  rewrite (relay_response_ok _ _ _ _ _ _ Hcode).
  unfold relay_body. unfold bind at 1. rewrite Hloop. unfold bind, ret.
  unfold pending_message.
  destruct em as [f |].
  - destruct (PyStr.nonempty (token_buffer s1)) eqn:Hb.
    + rewrite (flush_buffer_sends f clock s1 Hb), (Hsink f eq_refl). reflexivity.
    + rewrite flush_buffer_empty by (apply nonempty_false; exact Hb).
      now rewrite app_nil_r.
  - rewrite flush_buffer_no_sink.
    apply stream_loop_no_sink in Hloop. destruct Hloop as [Hb _].
    simpl in Hb. rewrite Hb. simpl. now rewrite app_nil_r.
Qed.

Lemma exhausted_stream_is_flushed_once_witness :
  pipe Json.loads (Some Fixtures.accepting_sink) Fixtures.frozen_clock
       (Fixtures.serve [Fixtures.frame_He; Fixtures.frame_llo] None) Fixtures.valves
  = mkOutcome (Ok "") [Message "Hello"] [build_request Fixtures.valves].
Proof.
  apply (exhausted_stream_is_flushed_once Json.loads (Some Fixtures.accepting_sink)
           Fixtures.frozen_clock
           (Fixtures.serve [Fixtures.frame_He; Fixtures.frame_llo] None)
           Fixtures.valves 200%Z [Fixtures.frame_He; Fixtures.frame_llo]
           (mkState None "Hello" 0 [] 3)).
  - reflexivity.
  - reflexivity.
  - reflexivity.
  - lia.
  - vm_compute. reflexivity.
  - intros f H. injection H as <-. reflexivity.
Defined.

(** C10. The frame [{'choices': true}] (with double quotes) is valid JSON of the wrong shape:
    [choices] is true, so line 229 subscripts a [bool]. The [TypeError] is
    not a [JSONDecodeError] and passes the handler of line 235: the rest of
    the stream is not read, the text buffered so far ([He]) is never flushed,
    and [pipe] returns the text of the exception after [Error: ]. Without
    that frame the same stream delivers [Hello]. *)
Theorem ill_shaped_frame_aborts_stream :
  Json.loads (PyStr.q "{'choices': true}") = Ok (PDict [("choices", PBool true)])
  /\ pipe Json.loads (Some Fixtures.accepting_sink) Fixtures.frozen_clock
          (Fixtures.serve [Fixtures.frame_He; Fixtures.frame_choices_true;
                           Fixtures.frame_llo; Fixtures.frame_done] None)
          Fixtures.valves
     = mkOutcome (Ok "Error: 'bool' object is not subscriptable") []
                 [build_request Fixtures.valves]
  /\ pipe Json.loads (Some Fixtures.accepting_sink) Fixtures.frozen_clock
          (Fixtures.serve [Fixtures.frame_He;
                           Fixtures.frame_llo; Fixtures.frame_done] None)
          Fixtures.valves
     = mkOutcome (Ok "") [Message "Hello"] [build_request Fixtures.valves].
Proof. repeat split; vm_compute; reflexivity. Qed.


(** ** The payload *)

Lemma lookup_dict_set_same (k : string) (v : pyval) (d : list (string * pyval)) :
  Py.lookup k (Py.dict_set k v d) = Some v.
Proof.
  induction d as [| [k' v'] r IH]; simpl.
  - now rewrite String.eqb_refl.
  - destruct (String.eqb k k') eqn:E; simpl; rewrite E; [reflexivity | exact IH].
Qed.

Lemma lookup_dict_set_other (k k' : string) (v : pyval) (d : list (string * pyval)) :
  k <> k' -> Py.lookup k (Py.dict_set k' v d) = Py.lookup k d.
Proof.
  intros Hne. induction d as [| [k1 v1] r IH]; simpl.
  - apply String.eqb_neq in Hne. now rewrite Hne.
  - destruct (String.eqb k' k1) eqn:E; simpl.
    + apply String.eqb_eq in E. subst k1.
      apply String.eqb_neq in Hne. now rewrite Hne.
    + destruct (String.eqb k k1); [reflexivity | exact IH].
Qed.

Lemma payload_sets_reserved_keys_aux
    (v : Valves) (c : Payload.CopiedValves) (a : Payload.Call) :
  Py.lookup "conversation_id" (Payload.payload v c a) = Some (Payload.conversation_id a)
  /\ Py.lookup "user_email" (Payload.payload v c a) = Some (Payload.user_email a)
  /\ Py.lookup "owui_instance" (Payload.payload v c a) = Some (Payload.owui_instance a)
  /\ Py.lookup "files" (Payload.payload v c a)
     = Some (PList (Payload.or_empty_list (Payload.__files__ a)))
  /\ Py.lookup "config" (Payload.payload v c a) = Some (Payload.config v c).
Proof.
  unfold Payload.payload.
  repeat split;
    repeat (first [ apply lookup_dict_set_same
                  | rewrite lookup_dict_set_other by discriminate ]).
Qed.

(** X1. The five keys that [pipe] sets always carry its own values in the
    payload, whatever the body holds under the same names: a caller cannot
    supply its own [config], [files] or identity fields. *)
Theorem payload_sets_reserved_keys
    (v : Valves) (c : Payload.CopiedValves) (a : Payload.Call) :
  Py.lookup "conversation_id" (Payload.payload v c a) = Some (Payload.conversation_id a)
  /\ Py.lookup "user_email" (Payload.payload v c a) = Some (Payload.user_email a)
  /\ Py.lookup "owui_instance" (Payload.payload v c a) = Some (Payload.owui_instance a)
  /\ Py.lookup "files" (Payload.payload v c a)
     = Some (PList (Payload.or_empty_list (Payload.__files__ a)))
  /\ Py.lookup "config" (Payload.payload v c a) = Some (Payload.config v c).
Proof. exact (payload_sets_reserved_keys_aux v c a). Qed.

(** X2. Every other key of the body reaches the payload with the value the
    body gave it, and a key absent from the body stays absent. *)
Theorem payload_keeps_body_keys
    (v : Valves) (c : Payload.CopiedValves) (a : Payload.Call) (k : string) :
  ~ In k Payload.reserved ->
  Py.lookup k (Payload.payload v c a) = Py.lookup k (Payload.body a).
Proof.
  intros Hk. unfold Payload.payload, Payload.reserved in *. simpl in Hk.
  repeat (rewrite lookup_dict_set_other by (intros ->; apply Hk; auto 10)).
  reflexivity.
Qed.

Lemma payload_keeps_body_keys_witness :
  Py.lookup "messages"
    (Payload.payload Fixtures.valves Fixtures.copied_valves
       (Payload.mkCall [("config", PStr "mine"); ("messages", PList [PStr "hi"])]
                       None None None None))
  = Some (PList [PStr "hi"]).
Proof.
  rewrite (payload_keeps_body_keys Fixtures.valves Fixtures.copied_valves
             (Payload.mkCall [("config", PStr "mine"); ("messages", PList [PStr "hi"])]
                             None None None None) "messages").
  - reflexivity.
  - simpl. intros [H | [H | [H | [H | [H | []]]]]]; discriminate H.
Defined.

(** X3. A non-empty [__chat_id__] is the conversation id whatever the
    metadata say; an empty one counts as missing. Without a chat id the
    metadata's [chat_id] is used, and without that the text [unknown]. *)
Theorem conversation_id_precedence
    (v : Valves) (c : Payload.CopiedValves) (a : Payload.Call) :
  Py.lookup "conversation_id" (Payload.payload v c a)
  = Some
      match Payload.__chat_id__ a with
      | Some id =>
          if PyStr.nonempty id then PStr id
          else match Payload.__metadata__ a with
               | Some m => match Py.lookup "chat_id" m with
                           | Some x => x
                           | None => PStr "unknown"
                           end
               | None => PStr "unknown"
               end
      | None =>
          match Payload.__metadata__ a with
          | Some m => match Py.lookup "chat_id" m with
                      | Some x => x
                      | None => PStr "unknown"
                      end
          | None => PStr "unknown"
          end
      end.
Proof.
  destruct (payload_sets_reserved_keys_aux v c a) as [H _]. rewrite H.
  unfold Payload.conversation_id, Payload.dict_get, Payload.or_empty_dict.
  destruct (Payload.__chat_id__ a) as [[| ch r] |];
    destruct (Payload.__metadata__ a); reflexivity.
Qed.


(** ** Tool availability *)

Lemma py_or_bool (b : bool) (x : pyval) :
  Payload.py_or (PBool b) x = if b then PBool true else x.
Proof. destruct b; reflexivity. Qed.

Lemma py_or_bools (a b : bool) :
  Payload.py_or (PBool a) (PBool b) = PBool (a || b).
Proof. destruct a; reflexivity. Qed.

Lemma py_and_str (k : string) (x : pyval) :
  Payload.py_and (PStr k) x = if PyStr.nonempty k then x else PStr "".
Proof. destruct k; reflexivity. Qed.

(** X4. What [_has_tools_enabled] returns is [True] whenever it is true,
    but when it is false it is [False] only if a file-recall instance id is
    set: otherwise it is the empty string, the last operand of the [or]
    chain, and that is what the payload carries as [use_tools]. The
    provider and model at the head of the payload's [config] follow its
    truth value, as in the request. *)
Theorem has_tools_enabled_result (v : Valves) (c : Payload.CopiedValves) :
  Payload._has_tools_enabled v
  = (if _has_tools_enabled v then PBool true
     else if PyStr.nonempty (FILE_RECALL_INSTANCE_ID v) then PBool false
          else PStr "")
  /\ Py.truthy (Payload._has_tools_enabled v) = _has_tools_enabled v
  /\ exists rest,
       Payload.config v c
       = PDict (("llm_provider", PStr (req_llm_provider (build_request v)))
                  :: ("llm_model", PStr (req_llm_model (build_request v)))
                  :: ("use_tools", Payload._has_tools_enabled v)
                  :: rest).
Proof.
  assert (H1 : Payload._has_tools_enabled v
               = (if _has_tools_enabled v then PBool true
                  else if PyStr.nonempty (FILE_RECALL_INSTANCE_ID v) then PBool false
                       else PStr "")).
  { unfold Payload._has_tools_enabled, _has_tools_enabled.
    rewrite !py_or_bools, !py_and_str.
    destruct (PyStr.nonempty (TAVILY_API_KEY v)),
             (PyStr.nonempty (COMFYUI_BASE_URL v)),
             (PyStr.nonempty (FILE_RECALL_INSTANCE_ID v)),
             (ENABLE_WEB_SEARCH v), (ENABLE_WEB_SCRAPE v), (ENABLE_DEEP_RESEARCH v),
             (ENABLE_IMAGE_GENERATION v), (ENABLE_IMAGE_EDIT v), (ENABLE_IMAGE_BLEND v),
             (ENABLE_SANDBOX v), (ENABLE_MEMORY v), (ENABLE_DATE_TIME v),
             (ENABLE_FILE_RECALL v); reflexivity. }
  assert (H2 : Py.truthy (Payload._has_tools_enabled v) = _has_tools_enabled v).
  { rewrite H1. destruct (_has_tools_enabled v); [reflexivity |].
    destruct (PyStr.nonempty (FILE_RECALL_INSTANCE_ID v)); reflexivity. }
  split; [exact H1 | split; [exact H2 |]].
  unfold Payload.config, build_request. simpl.
  rewrite H2. eexists. reflexivity.
Qed.

(** X5. The web and image switches need their service: with no Tavily key,
    no ComfyUI URL, and sandbox, memory, date/time and file recall switched
    off, no tool is available however the six web and image switches stand,
    and the request names the conversational provider and model. *)
Theorem tools_need_their_service (v : Valves) :
  TAVILY_API_KEY v = "" ->
  COMFYUI_BASE_URL v = "" ->
  ENABLE_SANDBOX v = false ->
  ENABLE_MEMORY v = false ->
  ENABLE_DATE_TIME v = false ->
  ENABLE_FILE_RECALL v = false ->
  _has_tools_enabled v = false
  /\ req_llm_provider (build_request v) = CONVERSATIONAL_LLM_PROVIDER v
  /\ req_llm_model (build_request v) = CONVERSATIONAL_LLM_MODEL v.
Proof.
  intros Ht Hc Hs Hm Hd Hf.
  assert (H : _has_tools_enabled v = false).
  { unfold _has_tools_enabled. rewrite Ht, Hc, Hs, Hm, Hd, Hf. simpl.
    now rewrite andb_false_r. }
  unfold build_request. simpl. rewrite H. auto.
Qed.

Lemma tools_need_their_service_witness :
  _has_tools_enabled Fixtures.bare_valves = false
  /\ req_llm_provider (build_request Fixtures.bare_valves) = "openai"
  /\ req_llm_model (build_request Fixtures.bare_valves) = "gpt-5.2".
Proof.
  apply (tools_need_their_service Fixtures.bare_valves); reflexivity.
Defined.


(** ** More on single lines *)

(** X6. A tag other than [status] and [source] does not turn the next data
    line into a status or citation: an [event: ] line with such a tag followed
    by a token frame for which the test of line 232 is false (the binary64
    difference of the clock reading and the timer is below [FLUSH_INTERVAL])
    calls the sink for nothing, appends the content to the buffer and leaves
    the tag cleared. *)
Theorem other_tag_buffers_tokens
    (json_loads : string -> result pyval) (f : sink) (clock : nat -> float)
    (raw1 raw2 t d c : string) (v : pyval) (s : relay_state) :
  PyStr.strip raw1 = "event: " ++ t ->
  PyStr.strip t <> "status" ->
  PyStr.strip t <> "source" ->
  PyStr.strip raw2 = "data: " ++ d ->
  d <> "[DONE]" ->
  json_loads d = Ok v ->
  token_frame v c ->
  PyStr.nonempty c = true ->
  PrimFloat.leb FLUSH_INTERVAL (PrimFloat.sub (clock (ticks s)) (last_flush s)) = false ->
  stream_loop json_loads (Some f) clock [raw1; raw2] s
  = (Ok Continue,
     mkState None (token_buffer s ++ c) (last_flush s) (emitted s) (S (ticks s))).
Proof.
  intros Hr1 Hst Hso Hr2 Hd Hj Ht Hc Hw.
  rewrite (stream_loop_cons _ _ _ _ _ _ _
             (process_line_event json_loads (Some f) clock raw1 t s Hr1)).
  erewrite stream_loop_cons;
    [ reflexivity
    | apply (process_line_token_buffered json_loads f clock raw2 d c v
               (mkState (Some (PyStr.strip t)) (token_buffer s) (last_flush s)
                        (emitted s) (ticks s)));
      simpl; try assumption; apply String.eqb_neq; assumption ].
Qed.

Lemma other_tag_buffers_tokens_witness :
  stream_loop Json.loads (Some Fixtures.accepting_sink) Fixtures.frozen_clock
    ["event: message"; Fixtures.frame_He] Fixtures.fresh
  = (Ok Continue, mkState None "He" 0 [] 2).
Proof.
  apply (other_tag_buffers_tokens Json.loads Fixtures.accepting_sink
           Fixtures.frozen_clock "event: message" Fixtures.frame_He "message"
           (PyStr.q "{'choices':[{'delta':{'content':'He'}}]}") "He"
           (PDict [("choices", PList [PDict [("delta", PDict [("content", PStr "He")])]])])
           Fixtures.fresh).
  - reflexivity.
  - discriminate.
  - discriminate.
  - reflexivity.
  - discriminate.
  - reflexivity.
  - do 3 eexists. repeat split; reflexivity.
  - reflexivity.
  - reflexivity.
Defined.

(** X7. The tag never outlives a data line: whenever the iteration for a
    data line other than the sentinel ends without an exception, the loop
    goes on and [current_event] is [None], whatever the payload was and
    whatever the sink did. *)
Theorem tag_is_cleared_after_data_line
    (json_loads : string -> result pyval) (em : option sink) (clock : nat -> float)
    (raw d : string) (s s1 : relay_state) (c : control) :
  PyStr.strip raw = "data: " ++ d ->
  d <> "[DONE]" ->
  process_line json_loads em clock raw s = (Ok c, s1) ->
  c = Continue /\ current_event s1 = None.
Proof.
  intros Hraw Hd.
  rewrite (process_line_data json_loads em clock raw d s Hraw)
    by (apply String.eqb_neq; exact Hd).
  unfold bind at 1, try_except, bind at 1.
  destruct (lift (json_loads d) s) as [[v | e] s2].
  - unfold bind at 1.
    destruct (handle_data em clock v s2) as [[[] | e] s3]; simpl.
    + intros H. injection H as <- <-. auto.
    + destruct (is_JSONDecodeError e); simpl; intros H;
        [injection H as <- <-; auto | discriminate].
  - destruct (is_JSONDecodeError e); simpl; intros H;
      [injection H as <- <-; auto | discriminate].
Qed.

Lemma tag_is_cleared_after_data_line_witness :
  exists c s1,
    process_line Json.loads (Some Fixtures.accepting_sink) Fixtures.frozen_clock
      Fixtures.frame_status (mkState (Some "status") "" 0 [] 1) = (Ok c, s1)
    /\ c = Continue /\ current_event s1 = None.
Proof.
  do 2 eexists. split; [vm_compute; reflexivity |].
  apply (tag_is_cleared_after_data_line Json.loads (Some Fixtures.accepting_sink)
           Fixtures.frozen_clock Fixtures.frame_status
           (PyStr.q "{'data':{'phase':'searching'}}")
           (mkState (Some "status") "" 0 [] 1)).
  - reflexivity.
  - discriminate.
  - reflexivity.
Defined.




(** X9. A frame that carries no text is passed over. With no callback
    every dictionary frame is; with one, and no [status] or [source] tag, so
    is a dictionary whose [choices] is missing or false (an empty list, null)
    and a frame whose content is false (the empty string, null). Nothing is
    sent or buffered and only the tag is cleared. *)
Theorem frame_without_text_is_passed_over
    (json_loads : string -> result pyval) (em : option sink) (clock : nat -> float)
    (raw d : string) (kv : list (string * pyval)) (s : relay_state) :
  PyStr.strip raw = "data: " ++ d ->
  d <> "[DONE]" ->
  json_loads d = Ok (PDict kv) ->
  em = None
  \/ (tag_is "status" (current_event s) = false
      /\ tag_is "source" (current_event s) = false
      /\ (Py.truthy (Payload.dict_get kv "choices" PNone) = false
          \/ exists x, frame_content (PDict kv) x /\ Py.truthy x = false)) ->
  process_line json_loads em clock raw s = (Ok Continue, clear_tag s).
Proof.
  intros Hraw Hd Hj H.
  rewrite (process_line_data json_loads em clock raw d s Hraw)
    by (apply String.eqb_neq; exact Hd).
  assert (Hnone : forall s', handle_data None clock (PDict kv) s' = (Ok tt, s'))
    by (intros s'; rewrite handle_data_no_sink; reflexivity).
  destruct H as [-> | (Hst & Hso & H)];
    [unfold bind, try_except, lift; rewrite Hj, Hnone; reflexivity |].
  destruct em as [f |];
    [| unfold bind, try_except, lift; rewrite Hj, Hnone; reflexivity].
  unfold bind, try_except, lift, handle_data, gets, bind, lift. rewrite Hj.
  rewrite Hst, Hso.
  destruct H as [Hch | (x & (choices & first & delta & Hc & Ht & Hi & Hde & Hco) & Hx)].
  - unfold Payload.dict_get in Hch. simpl. rewrite Hch. reflexivity.
  - rewrite Hc, Ht, Hi, Hde, Hco, Hx. reflexivity.
Qed.

Lemma frame_without_text_is_passed_over_witness :
  process_line Json.loads (Some Fixtures.accepting_sink) Fixtures.frozen_clock
    (PyStr.q "data: {'choices': [], 'usage': 3}") (mkState (Some "usage") "He" 0 [] 1)
  = (Ok Continue, mkState None "He" 0 [] 1).
Proof.
  apply (frame_without_text_is_passed_over Json.loads (Some Fixtures.accepting_sink)
           Fixtures.frozen_clock (PyStr.q "data: {'choices': [], 'usage': 3}")
           (PyStr.q "{'choices': [], 'usage': 3}")
           [("choices", PList []); ("usage", PInt 3)]
           (mkState (Some "usage") "He" 0 [] 1)).
  - reflexivity.
  - discriminate.
  - reflexivity.
  - right. repeat split; try reflexivity. left. reflexivity.
Defined.

Lemma py_get_not_dict (v : pyval) (k : string) (d : pyval) :
  Py.type_name v <> "dict" ->
  Py.get v k d
  = Raise (PyException ("'" ++ Py.type_name v ++ "' object has no attribute 'get'")).
Proof. destruct v; simpl; intros H; try reflexivity. now destruct H. Qed.

(** X10. A payload that is valid JSON but not an object (null, a number, a
    string, an array) ends the stream: [.get] is missing on it, the error is
    no decoding error, and the iteration raises it. Under a [status] or
    [source] tag the pending text has been sent first; otherwise nothing is
    sent. The sink is taken to return from that one call. *)
Theorem non_object_frame_raises
    (json_loads : string -> result pyval) (em : option sink) (clock : nat -> float)
    (raw d : string) (v : pyval) (s : relay_state) :
  PyStr.strip raw = "data: " ++ d ->
  d <> "[DONE]" ->
  json_loads d = Ok v ->
  Py.type_name v <> "dict" ->
  (forall f, em = Some f -> f (emitted s) (Message (token_buffer s)) = None) ->
  fst (process_line json_loads em clock raw s)
  = Raise (PyException ("'" ++ Py.type_name v ++ "' object has no attribute 'get'"))
  /\ emitted (snd (process_line json_loads em clock raw s))
     = (emitted s
          ++ match em with
             | Some _ =>
                 if tag_is "status" (current_event s)
                    || tag_is "source" (current_event s)
                 then pending_message s
                 else []
             | None => []
             end)%list.
Proof.
  intros Hraw Hd Hj Hv Hf.
  assert (Hfl : forall f, em = Some f ->
            exists s1, flush_buffer (Some f) clock s = (Ok tt, s1)
                       /\ emitted s1 = (emitted s ++ pending_message s)%list).
  { intros f Hem. unfold pending_message.
    destruct (PyStr.nonempty (token_buffer s)) eqn:Hb.
    - rewrite (flush_buffer_sends f clock s Hb), (Hf f Hem). eauto.
    - rewrite flush_buffer_empty by (apply nonempty_false; exact Hb).
      eexists. split; [reflexivity | now rewrite app_nil_r]. }
  assert (H : exists s1,
            process_line json_loads em clock raw s
            = (Raise (PyException
                        ("'" ++ Py.type_name v ++ "' object has no attribute 'get'")),
               s1)
            /\ emitted s1
               = (emitted s
                    ++ match em with
                       | Some _ =>
                           if tag_is "status" (current_event s)
                              || tag_is "source" (current_event s)
                           then pending_message s
                           else []
                       | None => []
                       end)%list).
  { rewrite (process_line_data json_loads em clock raw d s Hraw)
      by (apply String.eqb_neq; exact Hd).
    unfold bind at 1, try_except, bind at 1, lift at 1. rewrite Hj.
    destruct em as [f |].
    - unfold bind at 1, handle_data, bind at 1, gets.
      destruct (Hfl f eq_refl) as (s1 & Hs1 & He1).
      destruct (tag_is "status" (current_event s)); simpl;
        [| destruct (tag_is "source" (current_event s)); simpl ].
      + unfold bind, lift. rewrite Hs1, (py_get_not_dict v _ _ Hv). simpl. eauto.
      + unfold bind, lift. rewrite Hs1, (py_get_not_dict v _ _ Hv). simpl. eauto.
      + unfold bind, lift. rewrite (py_get_not_dict v _ _ Hv). simpl.
        eexists. split; [reflexivity | now rewrite app_nil_r].
    - unfold bind at 1.
      rewrite handle_data_no_sink, (py_get_not_dict v _ _ Hv). simpl.
      eexists. split; [reflexivity | now rewrite app_nil_r]. }
  destruct H as (s1 & -> & He). split; [reflexivity | exact He].
Qed.

Lemma non_object_frame_raises_witness :
  fst (process_line Json.loads None Fixtures.frozen_clock "data: null" Fixtures.fresh)
  = Raise (PyException "'NoneType' object has no attribute 'get'")
  /\ emitted (snd (process_line Json.loads None Fixtures.frozen_clock "data: null"
                                Fixtures.fresh)) = [].
Proof.
  apply (non_object_frame_raises Json.loads None Fixtures.frozen_clock
           "data: null" "null" PNone Fixtures.fresh).
  - reflexivity.
  - discriminate.
  - reflexivity.
  - discriminate.
  - discriminate.
Defined.

(** X11. Content that is true but not a string (a number, [true], a
    non-empty array or object) ends the stream as well: appending it to the
    buffer raises [TypeError]. Nothing is sent and the buffer keeps what it
    had. *)
Theorem non_string_content_raises
    (json_loads : string -> result pyval) (f : sink) (clock : nat -> float)
    (raw d : string) (v x : pyval) (s : relay_state) :
  PyStr.strip raw = "data: " ++ d ->
  d <> "[DONE]" ->
  json_loads d = Ok v ->
  frame_content v x ->
  Py.truthy x = true ->
  Py.type_name x <> "str" ->
  tag_is "status" (current_event s) = false ->
  tag_is "source" (current_event s) = false ->
  process_line json_loads (Some f) clock raw s
  = (Raise (PyException
              ("can only concatenate str (not "
                 ++ String PyStr.dquote (Py.type_name x)
                 ++ String PyStr.dquote ") to str")),
     s).
Proof.
  intros Hraw Hd Hj (choices & first & delta & Hc & Ht & Hi & Hde & Hco)
         Hx Hty Hst Hso.
  rewrite (process_line_data json_loads (Some f) clock raw d s Hraw)
    by (apply String.eqb_neq; exact Hd).
  unfold bind, try_except, lift, handle_data, gets, bind, lift.
  rewrite Hj. simpl. rewrite Hst, Hso, Hc, Ht, Hi, Hde, Hco. simpl. rewrite Hx.
  destruct x; simpl; try reflexivity. now destruct Hty.
Qed.

Lemma non_string_content_raises_witness :
  fst (process_line Json.loads (Some Fixtures.accepting_sink) Fixtures.frozen_clock
         (PyStr.q "data: {'choices':[{'delta':{'content':7}}]}")
         (mkState None "He" 0 [] 1))
  = Raise (PyException (PyStr.q "can only concatenate str (not 'int') to str")).
Proof.
  rewrite (non_string_content_raises Json.loads Fixtures.accepting_sink
             Fixtures.frozen_clock
             (PyStr.q "data: {'choices':[{'delta':{'content':7}}]}")
             (PyStr.q "{'choices':[{'delta':{'content':7}}]}")
             (PDict [("choices", PList [PDict [("delta", PDict [("content", PInt 7)])]])])
             (PInt 7) (mkState None "He" 0 [] 1)).
  - reflexivity.
  - reflexivity.
  - discriminate.
  - reflexivity.
  - do 3 eexists. repeat split; reflexivity.
  - reflexivity.
  - discriminate.
  - reflexivity.
  - reflexivity.
Defined.

(** X12. The handler of line 235 also covers the callback: when the sink
    itself raises a [JSONDecodeError] while a status or citation frame is
    handled, the error is swallowed like a malformed frame. The call has been
    made, the tag is cleared and the loop goes on. *)
Theorem decoding_error_of_sink_is_swallowed
    (json_loads : string -> result pyval) (f : sink) (clock : nat -> float)
    (raw d tag msg : string) (mk : pyval -> event)
    (kv : list (string * pyval)) (s : relay_state) :
  PyStr.strip raw = "data: " ++ d ->
  d <> "[DONE]" ->
  json_loads d = Ok (PDict kv) ->
  (tag = "status" /\ mk = Status) \/ (tag = "source" /\ mk = Citation) ->
  current_event s = Some tag ->
  token_buffer s = "" ->
  f (emitted s) (mk (Payload.dict_get kv "data" (PDict []))) = Some (JSONDecodeError msg) ->
  process_line json_loads (Some f) clock raw s
  = (Ok Continue,
     mkState None "" (last_flush s)
             (emitted s ++ [mk (Payload.dict_get kv "data" (PDict []))])%list
             (ticks s)).
Proof.
  intros Hraw Hd Hj Htag Hcur Hbuf Hf.
  rewrite (process_line_tagged json_loads f clock raw d tag mk (PDict kv) s
             Hraw Hd Hj Htag Hcur).
  cbv zeta. rewrite (flush_buffer_empty (Some f) clock s Hbuf).
  unfold Payload.dict_get in Hf. simpl. rewrite Hf. simpl.
  unfold clear_tag. simpl. rewrite Hbuf. reflexivity.
Qed.

Lemma decoding_error_of_sink_is_swallowed_witness :
  process_line Json.loads (Some Fixtures.decoding_sink) Fixtures.frozen_clock
    Fixtures.frame_status (mkState (Some "status") "" 0 [] 1)
  = (Ok Continue,
     mkState None "" 0 [Status (PDict [("phase", PStr "searching")])] 1).
Proof.
  apply (decoding_error_of_sink_is_swallowed Json.loads Fixtures.decoding_sink
           Fixtures.frozen_clock Fixtures.frame_status
           (PyStr.q "{'data':{'phase':'searching'}}") "status" "Extra data" Status
           [("data", PDict [("phase", PStr "searching")])]
           (mkState (Some "status") "" 0 [] 1)).
  - reflexivity.
  - discriminate.
  - reflexivity.
  - left. split; reflexivity.
  - reflexivity.
  - reflexivity.
  - reflexivity.
Defined.


(** ** More on whole runs *)

(** A status outside 2xx: nothing is initialised and nothing is read. *)
Lemma relay_response_bad_status
    (json_loads : string -> result pyval) (em : option sink) (clock : nat -> float)
    (code : Z) (lines : list string) (ending : option exn) :
  (code < 200 \/ 299 < code)%Z ->
  relay_response json_loads em clock code lines ending initial_state
  = (Raise (HTTPStatusError code), initial_state).
Proof.
  intros Hcode. unfold relay_response, raise_for_status.
  replace ((200 <=? code)%Z && (code <=? 299)%Z) with false; [reflexivity |].
  symmetry. apply andb_false_iff.
  destruct Hcode; [left; apply Z.leb_gt | right; apply Z.leb_gt]; assumption.
Qed.

Lemma status_cases (code : Z) :
  (200 <= code <= 299)%Z \/ (code < 200 \/ 299 < code)%Z.
Proof. lia. Qed.

Lemma startswith_slice (p s : string) :
  PyStr.startswith p s = true -> s = p ++ PyStr.slice_from (String.length p) s.
Proof.
  unfold PyStr.startswith. revert s.
  induction p as [| a p IH]; intros s H; simpl.
  - reflexivity.
  - destruct s as [| b s]; simpl in H; [discriminate |].
    destruct (ascii_dec a b) as [<- | _]; [| discriminate].
    f_equal. apply IH. exact H.
Qed.

(** Without a callback, a line whose payload is an object or malformed is
    taken in without an exception, and nothing is buffered or sent. *)
Lemma process_line_no_sink_returns
    (json_loads : string -> result pyval) (clock : nat -> float)
    (raw : string) (s : relay_state) :
  object_or_malformed json_loads raw ->
  exists c s1,
    process_line json_loads None clock raw s = (Ok c, s1)
    /\ token_buffer s1 = token_buffer s /\ emitted s1 = emitted s.
Proof.
  intros Hraw. unfold process_line.
  destruct (negb (PyStr.nonempty (PyStr.strip raw))); [do 2 eexists; repeat split; reflexivity |].
  destruct (PyStr.startswith "event: " (PyStr.strip raw)); [do 2 eexists; repeat split; reflexivity |].
  destruct (PyStr.startswith "data: " (PyStr.strip raw)) eqn:Hd; [| do 2 eexists; repeat split; reflexivity].
  apply startswith_slice in Hd. simpl String.length in Hd.
  destruct (String.eqb (PyStr.slice_from 6 (PyStr.strip raw)) "[DONE]") eqn:He;
    [unfold bind; rewrite flush_buffer_no_sink;
     do 2 eexists; repeat split; reflexivity |].
  apply String.eqb_neq in He.
  unfold bind, try_except, lift.
  destruct (Hraw _ Hd He) as [[kv ->] | [msg ->]];
    [rewrite handle_data_no_sink |];
    do 2 eexists; repeat split; reflexivity.
Qed.

Lemma stream_loop_no_sink_returns
    (json_loads : string -> result pyval) (clock : nat -> float)
    (lines : list string) :
  Forall (object_or_malformed json_loads) lines ->
  forall s,
  exists c s1,
    stream_loop json_loads None clock lines s = (Ok c, s1)
    /\ token_buffer s1 = token_buffer s /\ emitted s1 = emitted s.
Proof.
  intros H. induction H as [| raw lines Hraw _ IH]; intros s; simpl.
  - do 2 eexists; repeat split; reflexivity.
  - destruct (process_line_no_sink_returns json_loads clock raw s Hraw)
      as (c & s1 & Hp & Hb & He).
    unfold bind. rewrite Hp. destruct c.
    + destruct (IH s1) as (c' & s2 & Hl & Hb' & He').
      exists c', s2. split; [exact Hl | split; congruence].
    + do 2 eexists. split; [reflexivity | split; assumption].
Qed.

(** X13. A missing callback is never called. Awaiting [None] would raise
    [TypeError] and end the stream with an error string; with
    [__event_emitter__] absent, a body whose data payloads are objects
    (token, status or citation frames alike) or malformed is instead read to
    its end without an exception: [pipe] returns the empty string and makes
    no sink call. The tests of lines 203, 222, 225 and 228 keep every call
    away from [None]. *)
Theorem no_callback_is_never_called
    (json_loads : string -> result pyval) (clock : nat -> float)
    (transport : request -> transport_result) (v : Valves)
    (code : Z) (lines : list string) :
  PyStr.nonempty (TOOLSET_API_URL v) = true ->
  PyStr.nonempty (TOOLSET_API_KEY v) = true ->
  transport (build_request v) = Response code lines None ->
  (200 <= code <= 299)%Z ->
  Forall (object_or_malformed json_loads) lines ->
  pipe json_loads None clock transport v
  = mkOutcome (Ok "") [] [build_request v].
Proof.
  intros Hu Hk Ht Hcode Hlines.
  rewrite (pipe_configured _ _ _ _ _ Hu Hk), Ht.
  rewrite (relay_response_ok _ _ _ _ _ _ Hcode).
  destruct (stream_loop_no_sink_returns json_loads clock lines Hlines
              (mkState None "" (clock 0%nat) [] 1))
    as (c & s1 & Hl & _ & He).
  unfold relay_body. unfold bind at 1. rewrite Hl.
  unfold bind. destruct c; simpl; rewrite flush_buffer_no_sink, He; reflexivity.
Qed.

Lemma no_callback_is_never_called_witness :
  pipe Json.loads None Fixtures.frozen_clock
       (Fixtures.serve [Fixtures.frame_He; "event: status"; Fixtures.frame_status;
                        Fixtures.frame_bad; Fixtures.frame_llo] None)
       Fixtures.valves
  = mkOutcome (Ok "") [] [build_request Fixtures.valves].
Proof.
  apply (no_callback_is_never_called Json.loads Fixtures.frozen_clock
           (Fixtures.serve [Fixtures.frame_He; "event: status"; Fixtures.frame_status;
                            Fixtures.frame_bad; Fixtures.frame_llo] None)
           Fixtures.valves 200%Z
           [Fixtures.frame_He; "event: status"; Fixtures.frame_status;
            Fixtures.frame_bad; Fixtures.frame_llo]).
  - reflexivity.
  - reflexivity.
  - reflexivity.
  - lia.
  - repeat apply Forall_cons; try apply Forall_nil;
      intros d Hd Hne; vm_compute in Hd;
      try discriminate Hd; injection Hd as <-.
    + left. eexists. vm_compute. reflexivity.
    + left. eexists. vm_compute. reflexivity.
    + right. eexists. vm_compute. reflexivity.
    + left. eexists. vm_compute. reflexivity.
Defined.

(** After the sentinel nothing is read. *)
Lemma stream_loop_stops_at_done
    (json_loads : string -> result pyval) (em : option sink) (clock : nat -> float)
    (pre rest : list string) (raw : string) (s : relay_state) :
  PyStr.strip raw = "data: [DONE]" ->
  stream_loop json_loads em clock (pre ++ raw :: rest) s
  = stream_loop json_loads em clock (pre ++ [raw]) s
  /\ (forall s', stream_loop json_loads em clock (pre ++ [raw]) s <> (Ok Continue, s')).
Proof.
  intros Hraw. revert s. induction pre as [| l pre IH]; intros s; simpl.
  - unfold bind.
    rewrite (process_line_done json_loads em clock raw s Hraw).
    unfold bind, ret.
    destruct (flush_buffer em clock s) as [[[] | e] s1];
      (split; [reflexivity | intros s'; discriminate]).
  - unfold bind.
    destruct (process_line json_loads em clock l s) as [[[|] | e] s1].
    + apply IH.
    + split; [reflexivity | intros s'; discriminate].
    + split; [reflexivity | intros s'; discriminate].
Qed.

(** X14. The sentinel ends the stream for good: the lines that follow it,
    and an error of the transport after it, change neither the sink calls
    nor the result. *)
Theorem nothing_is_read_after_done
    (json_loads : string -> result pyval) (em : option sink) (clock : nat -> float)
    (pre rest : list string) (raw : string) (ending : option exn)
    (s : relay_state) :
  PyStr.strip raw = "data: [DONE]" ->
  relay_body json_loads em clock (pre ++ raw :: rest) ending s
  = relay_body json_loads em clock (pre ++ [raw]) None s.
Proof.
  intros Hraw.
  destruct (stream_loop_stops_at_done json_loads em clock pre rest raw s Hraw)
    as [Heq Hne].
  unfold relay_body. unfold bind at 1 3. rewrite Heq.
  destruct (stream_loop json_loads em clock (pre ++ [raw]) s) as [[[|] | e] s1].
  - exfalso. exact (Hne s1 eq_refl).
  - reflexivity.
  - reflexivity.
Qed.

Lemma nothing_is_read_after_done_witness :
  relay_body Json.loads (Some Fixtures.accepting_sink) Fixtures.frozen_clock
    ([Fixtures.frame_He] ++ Fixtures.frame_done :: [Fixtures.frame_choices_true])
    (Some ConnectError) Fixtures.fresh
  = relay_body Json.loads (Some Fixtures.accepting_sink) Fixtures.frozen_clock
      ([Fixtures.frame_He] ++ [Fixtures.frame_done]) None Fixtures.fresh.
Proof.
  apply (nothing_is_read_after_done Json.loads (Some Fixtures.accepting_sink)
           Fixtures.frozen_clock [Fixtures.frame_He] [Fixtures.frame_choices_true]
           Fixtures.frame_done (Some ConnectError) Fixtures.fresh).
  reflexivity.
Defined.

(** X15. A status outside 2xx is reported with its number and the body is
    not read: no line of it reaches the sink, whatever it holds. *)
Theorem http_error_skips_the_body
    (json_loads : string -> result pyval) (em : option sink) (clock : nat -> float)
    (transport : request -> transport_result) (v : Valves)
    (code : Z) (lines : list string) (ending : option exn) :
  PyStr.nonempty (TOOLSET_API_URL v) = true ->
  PyStr.nonempty (TOOLSET_API_KEY v) = true ->
  transport (build_request v) = Response code lines ending ->
  (code < 200 \/ 299 < code)%Z ->
  pipe json_loads em clock transport v
  = mkOutcome (Ok ("Error: HTTP " ++ PyStr.of_Z code)) [] [build_request v].
Proof.
  intros Hu Hk Ht Hcode.
  rewrite (pipe_configured _ _ _ _ _ Hu Hk), Ht.
  rewrite (relay_response_bad_status _ _ _ _ _ _ Hcode). reflexivity.
Qed.

Lemma http_error_skips_the_body_witness :
  pipe Json.loads (Some Fixtures.accepting_sink) Fixtures.frozen_clock
       (fun _ => Response 404 [Fixtures.frame_He; Fixtures.frame_done] None)
       Fixtures.valves
  = mkOutcome (Ok "Error: HTTP 404") [] [build_request Fixtures.valves].
Proof.
  apply (http_error_skips_the_body Json.loads (Some Fixtures.accepting_sink)
           Fixtures.frozen_clock
           (fun _ => Response 404 [Fixtures.frame_He; Fixtures.frame_done] None)
           Fixtures.valves 404%Z [Fixtures.frame_He; Fixtures.frame_done] None).
  - reflexivity.
  - reflexivity.
  - reflexivity.
  - right. lia.
Defined.

(** X16. [pipe] sends at most one request and never one without
    credentials: every request it hands to the transport is a POST to the
    configured URL followed by [/api/v1/chat], bears the configured key, and
    both are non-empty. *)
Theorem requests_carry_credentials
    (json_loads : string -> result pyval) (em : option sink) (clock : nat -> float)
    (transport : request -> transport_result) (v : Valves) :
  (length (network_calls (pipe json_loads em clock transport v)) <= 1)%nat
  /\ forall req,
       In req (network_calls (pipe json_loads em clock transport v)) ->
       req_method req = "POST"
       /\ req_url req = TOOLSET_API_URL v ++ "/api/v1/chat"
       /\ req_authorization req = "Bearer " ++ TOOLSET_API_KEY v
       /\ PyStr.nonempty (TOOLSET_API_URL v) = true
       /\ PyStr.nonempty (TOOLSET_API_KEY v) = true.
Proof.
  unfold pipe.
  destruct (PyStr.nonempty (TOOLSET_API_URL v)) eqn:Hu; simpl;
    [| split; [lia | intros req []]].
  destruct (PyStr.nonempty (TOOLSET_API_KEY v)) eqn:Hk; simpl;
    [| split; [lia | intros req []]].
  destruct (match transport (build_request v) with
            | StreamRaises e => _
            | Response code lines ending => _
            end) as [r s1].
  simpl. split; [lia |].
  intros req [<- | []]. repeat split; reflexivity.
Qed.


(** ** Invariants of the sink calls *)

Section Preserved.

Variable P : relay_state -> Prop.

Lemma preserves_ret {A} (a : A) : preserves P (ret a).
Proof. intros s r s' HP H. injection H as _ <-. exact HP. Qed.

Lemma preserves_raise {A} (e : exn) : preserves P (@raise A e).
Proof. intros s r s' HP H. injection H as _ <-. exact HP. Qed.

Lemma preserves_lift {A} (x : result A) : preserves P (lift x).
Proof. intros s r s' HP H. injection H as _ <-. exact HP. Qed.

Lemma preserves_gets {A} (f : relay_state -> A) : preserves P (gets f).
Proof. intros s r s' HP H. injection H as _ <-. exact HP. Qed.

Lemma preserves_modify (f : relay_state -> relay_state) :
  (forall s, P s -> P (f s)) -> preserves P (modify f).
Proof. intros Hf s r s' HP H. injection H as _ <-. apply Hf, HP. Qed.

Lemma preserves_bind {A B} (m : M A) (k : A -> M B) :
  preserves P m -> (forall a, preserves P (k a)) -> preserves P (bind m k).
Proof.
  intros Hm Hk s r s' HP H. unfold bind in H.
  destruct (m s) as [[a | e] s1] eqn:Hms.
  - eapply Hk; [eapply Hm; eassumption | exact H].
  - injection H as _ <-. eapply Hm; eassumption.
Qed.

Lemma preserves_try_except {A} (m h : M A) (catches : exn -> bool) :
  preserves P m -> preserves P h -> preserves P (try_except m catches h).
Proof.
  intros Hm Hh s r s' HP H. unfold try_except in H.
  destruct (m s) as [[a | e] s1] eqn:Hms.
  - injection H as _ <-. eapply Hm; eassumption.
  - destruct (catches e).
    + eapply Hh; [eapply Hm; eassumption | exact H].
    + injection H as _ <-. eapply Hm; eassumption.
Qed.

End Preserved.

Lemma calls_sound_set_current_event (t : option string) :
  preserves calls_sound (set_current_event t).
Proof. apply preserves_modify. intros s H. exact H. Qed.

Lemma calls_sound_set_token_buffer (b : string) :
  preserves calls_sound (set_token_buffer b).
Proof. apply preserves_modify. intros s H. exact H. Qed.

Lemma calls_sound_set_last_flush (t : float) :
  preserves calls_sound (set_last_flush t).
Proof. apply preserves_modify. intros s H. exact H. Qed.

Lemma calls_sound_monotonic (clock : nat -> float) :
  preserves calls_sound (monotonic clock).
Proof. intros s r s' HP H. injection H as _ <-. exact HP. Qed.

Lemma calls_sound_await (f : sink) (ev : event) :
  sound_event ev = true -> preserves calls_sound (await_emitter f ev).
Proof.
  intros Hev s r s' HP H. unfold await_emitter in H.
  assert (Hs : calls_sound
                 (mkState (current_event s) (token_buffer s) (last_flush s)
                          (emitted s ++ [ev])%list (ticks s))).
  { unfold calls_sound in *. simpl. apply Forall_app. split; [exact HP |].
    constructor; [exact Hev | constructor]. }
  destruct (f (emitted s) ev); injection H as _ <-; exact Hs.
Qed.

Lemma calls_sound_await_event_emitter (em : option sink) (ev : event) :
  sound_event ev = true -> preserves calls_sound (await_event_emitter em ev).
Proof.
  intros Hev. destruct em as [f |]; simpl.
  - apply calls_sound_await. exact Hev.
  - apply preserves_raise.
Qed.

Create HintDb sound.
#[local] Hint Resolve preserves_ret preserves_raise preserves_lift preserves_gets
  calls_sound_set_current_event calls_sound_set_token_buffer
  calls_sound_set_last_flush calls_sound_monotonic : sound.

Ltac sound_step :=
  first
    [ solve [eauto with sound]
    | apply preserves_bind; [| intros ?]
    | apply preserves_try_except
    | apply calls_sound_await_event_emitter; reflexivity
    | match goal with
      | |- preserves _ (if ?c then _ else _) => destruct c eqn:?
      | |- preserves _ (match ?c with Some _ => _ | None => _ end) => destruct c
      end ].

Lemma calls_sound_flush_buffer (em : option sink) (clock : nat -> float) :
  preserves calls_sound (flush_buffer em clock).
Proof.
  unfold flush_buffer. apply preserves_bind; [auto with sound | intros buf].
  destruct (PyStr.nonempty buf && registered em) eqn:Hb; [| auto with sound].
  apply andb_prop in Hb. destruct Hb as [Hb _].
  apply preserves_bind; [apply calls_sound_await_event_emitter; exact Hb | intros _].
  repeat sound_step.
Qed.

Lemma calls_sound_handle_data (em : option sink) (clock : nat -> float) (data : pyval) :
  preserves calls_sound (handle_data em clock data).
Proof.
  pose proof (calls_sound_flush_buffer em clock) as Hfl.
  unfold handle_data. repeat sound_step.
Qed.

Lemma calls_sound_process_line
    (json_loads : string -> result pyval) (em : option sink) (clock : nat -> float)
    (raw : string) :
  preserves calls_sound (process_line json_loads em clock raw).
Proof.
  pose proof (calls_sound_flush_buffer em clock) as Hfl.
  pose proof (calls_sound_handle_data em clock) as Hhd.
  unfold process_line. repeat sound_step.
Qed.

Lemma calls_sound_stream_loop
    (json_loads : string -> result pyval) (em : option sink) (clock : nat -> float)
    (lines : list string) :
  preserves calls_sound (stream_loop json_loads em clock lines).
Proof.
  induction lines as [| l rest IH]; simpl.
  - auto with sound.
  - apply preserves_bind; [apply calls_sound_process_line | intros [|]];
      auto with sound.
Qed.

Lemma calls_sound_relay_response
    (json_loads : string -> result pyval) (em : option sink) (clock : nat -> float)
    (code : Z) (lines : list string) (ending : option exn) :
  preserves calls_sound (relay_response json_loads em clock code lines ending).
Proof.
  pose proof (calls_sound_flush_buffer em clock) as Hfl.
  pose proof (calls_sound_stream_loop json_loads em clock lines) as Hloop.
  unfold relay_response, relay_body. repeat sound_step.
Qed.

(** X17. [pipe] never sends a [Message] without text: in every run, with
    every stream, clock and sink, the content of each [Message] handed to the
    sink is non-empty. *)
Theorem no_empty_message
    (json_loads : string -> result pyval) (em : option sink) (clock : nat -> float)
    (transport : request -> transport_result) (v : Valves) (c : string) :
  In (Message c) (sink_calls (pipe json_loads em clock transport v)) ->
  c <> "".
Proof.
  assert (H : Forall (fun ev => sound_event ev = true)
                     (sink_calls (pipe json_loads em clock transport v))).
  { unfold pipe.
    destruct (negb (PyStr.nonempty (TOOLSET_API_URL v))); [constructor |].
    destruct (negb (PyStr.nonempty (TOOLSET_API_KEY v))); [constructor |].
    destruct (transport (build_request v)) as [e | code lines ending];
      [constructor |].
    destruct (relay_response json_loads em clock code lines ending initial_state)
      as [r s1] eqn:Hr.
    simpl. eapply (calls_sound_relay_response json_loads em clock); [| exact Hr].
    constructor. }
  intros Hin. rewrite Forall_forall in H. specialize (H _ Hin).
  simpl in H. intros ->. discriminate H.
Qed.

Lemma no_empty_message_witness :
  In (Message "Hello")
     (sink_calls
        (pipe Json.loads (Some Fixtures.accepting_sink) Fixtures.frozen_clock
              (Fixtures.serve [Fixtures.frame_He; Fixtures.frame_llo; Fixtures.frame_done]
                              None)
              Fixtures.valves))
  /\ "Hello" <> "".
Proof.
  assert (H : In (Message "Hello")
                 (sink_calls
                    (pipe Json.loads (Some Fixtures.accepting_sink) Fixtures.frozen_clock
                          (Fixtures.serve
                             [Fixtures.frame_He; Fixtures.frame_llo; Fixtures.frame_done]
                             None)
                          Fixtures.valves)))
    by (vm_compute; left; reflexivity).
  split; [exact H |].
  exact (no_empty_message Json.loads (Some Fixtures.accepting_sink)
           Fixtures.frozen_clock
           (Fixtures.serve [Fixtures.frame_He; Fixtures.frame_llo; Fixtures.frame_done] None)
           Fixtures.valves "Hello" H).
Defined.


(** ** Surrounding whitespace *)

Lemma rstrip_keeps_head (c : ascii) (r : string) :
  PyStr.isspace c = false -> exists r', PyStr.rstrip (String c r) = String c r'.
Proof.
  intros Hc. simpl. destruct (PyStr.rstrip r); [rewrite Hc |]; eauto.
Qed.

Lemma lstrip_head (s : string) :
  PyStr.lstrip s = ""
  \/ exists c r, PyStr.lstrip s = String c r /\ PyStr.isspace c = false.
Proof.
  induction s as [| c r IH]; simpl; [auto |].
  destruct (PyStr.isspace c) eqn:Hc; [exact IH | right; eauto].
Qed.

Lemma rstrip_idempotent (s : string) : PyStr.rstrip (PyStr.rstrip s) = PyStr.rstrip s.
Proof.
  induction s as [| c r IH]; simpl; [reflexivity |].
  destruct (PyStr.rstrip r) as [| d u] eqn:Hu.
  - destruct (PyStr.isspace c) eqn:Hc; simpl; [reflexivity | now rewrite Hc].
  - simpl in *. rewrite IH. reflexivity.
Qed.

Lemma strip_idempotent (s : string) : PyStr.strip (PyStr.strip s) = PyStr.strip s.
Proof.
  unfold PyStr.strip.
  destruct (lstrip_head s) as [-> | (c & r & -> & Hc)]; [reflexivity |].
  destruct (rstrip_keeps_head c r Hc) as [r' Hr]. rewrite Hr.
  simpl PyStr.lstrip. rewrite Hc. rewrite <- Hr. apply rstrip_idempotent.
Qed.

(** X18. Whitespace around a line does not count: a line and the same line
    with its leading and trailing whitespace removed (blanks, tabs, the
    carriage return of a CRLF stream) are processed in exactly the same
    way. *)
Theorem surrounding_whitespace_is_ignored
    (json_loads : string -> result pyval) (em : option sink) (clock : nat -> float)
    (raw : string) (s : relay_state) :
  process_line json_loads em clock (PyStr.strip raw) s
  = process_line json_loads em clock raw s.
Proof. unfold process_line. rewrite strip_idempotent. reflexivity. Qed.

(** ** Batching does not change what is delivered *)

Lemma string_app_assoc (a b c : string) : (a ++ b) ++ c = a ++ (b ++ c).
Proof. induction a as [| x a IH]; simpl; [reflexivity | now rewrite IH]. Qed.

Lemma join_front_app (a b : string) (evs : list event) :
  join_front (a ++ b) evs = join_front a (join_front b evs).
Proof.
  destruct evs as [| [d | d | d] r]; simpl; try reflexivity.
  now rewrite string_app_assoc.
Qed.

Lemma coalesce_app_l (xs ys : list event) :
  coalesce (coalesce xs ++ ys)%list = coalesce (xs ++ ys)%list.
Proof.
  induction xs as [| [a | d | d] xs IH]; simpl.
  - reflexivity.
  - rewrite <- IH.
    destruct (coalesce xs) as [| [b | d | d] r]; simpl; try reflexivity.
    apply join_front_app.
  - now rewrite IH.
  - now rewrite IH.
Qed.

Lemma coalesce_merge (xs ys : list event) (b c : string) :
  coalesce (xs ++ Message b :: Message c :: ys)%list
  = coalesce (xs ++ Message (b ++ c) :: ys)%list.
Proof.
  induction xs as [| [a | d | d] xs IH]; simpl.
  - symmetry. apply join_front_app.
  - now rewrite IH.
  - now rewrite IH.
  - now rewrite IH.
Qed.

(** Appending text to the buffer appends it to the view. *)
Lemma view_append (s : relay_state) (c : string) (tag : option string)
      (t : float) (n : nat) :
  PyStr.nonempty c = true ->
  view (mkState tag (token_buffer s ++ c) t (emitted s) n)
  = coalesce (view s ++ [Message c])%list.
Proof.
  intros Hc. unfold view at 2. rewrite coalesce_app_l.
  unfold view, pending_message. simpl.
  destruct (token_buffer s) as [| x b] eqn:Hb; simpl.
  - rewrite Hc, app_nil_r. reflexivity.
  - rewrite <- app_assoc. simpl. symmetry. apply coalesce_merge.
Qed.

(** A call made with an empty buffer appends the event to the view. *)
Lemma view_call (s : relay_state) (ev : event) :
  token_buffer s = "" ->
  view (mkState (current_event s) (token_buffer s) (last_flush s)
                (emitted s ++ [ev])%list (ticks s))
  = coalesce (view s ++ [ev])%list.
Proof.
  intros Hb. unfold view at 2. rewrite coalesce_app_l.
  unfold view, pending_message. simpl. rewrite Hb. simpl.
  now rewrite !app_nil_r.
Qed.

(** With a sink that returns, a flush succeeds, empties the buffer and
    keeps the tag and the view. *)
Lemma flush_buffer_returns (f : sink) (clock : nat -> float) (s : relay_state) :
  (forall h ev, f h ev = None) ->
  exists s1,
    flush_buffer (Some f) clock s = (Ok tt, s1)
    /\ current_event s1 = current_event s
    /\ token_buffer s1 = ""
    /\ view s1 = view s.
Proof.
  intros Hf. destruct (PyStr.nonempty (token_buffer s)) eqn:Hb.
  - rewrite (flush_buffer_sends f clock s Hb), Hf.
    eexists. repeat split. unfold view, pending_message. simpl. rewrite Hb.
    now rewrite app_nil_r.
  - pose proof (nonempty_false _ Hb) as He.
    rewrite (flush_buffer_empty (Some f) clock s He).
    exists s. auto.
Qed.

Section InStep.

Lemma in_step_ret {A} (a : A) : in_step (ret a) (ret a).
Proof. intros s1 s2 H. auto. Qed.

Lemma in_step_raise {A} (e : exn) : in_step (@raise A e) (@raise A e).
Proof. intros s1 s2 H. auto. Qed.

Lemma in_step_lift {A} (r : result A) : in_step (lift r) (lift r).
Proof. intros s1 s2 H. auto. Qed.

Lemma in_step_bind {A B} (m1 m2 : M A) (k1 k2 : A -> M B) :
  in_step m1 m2 -> (forall a, in_step (k1 a) (k2 a)) ->
  in_step (bind m1 k1) (bind m2 k2).
Proof.
  intros Hm Hk s1 s2 H. unfold bind.
  destruct (Hm s1 s2 H) as [Hr Hs].
  destruct (m1 s1) as [[a1 | e1] t1], (m2 s2) as [[a2 | e2] t2];
    simpl in *; try discriminate.
  - injection Hr as <-. apply Hk. exact Hs.
  - injection Hr as <-. split; [reflexivity | exact Hs].
Qed.

Lemma in_step_try_except {A} (m1 m2 h1 h2 : M A) (catches : exn -> bool) :
  in_step m1 m2 -> in_step h1 h2 ->
  in_step (try_except m1 catches h1) (try_except m2 catches h2).
Proof.
  intros Hm Hh s1 s2 H. unfold try_except.
  destruct (Hm s1 s2 H) as [Hr Hs].
  destruct (m1 s1) as [[a1 | e1] t1], (m2 s2) as [[a2 | e2] t2];
    simpl in *; try discriminate.
  - split; assumption.
  - injection Hr as <-.
    destruct (catches e1); [apply Hh; exact Hs | split; [reflexivity | exact Hs]].
Qed.

Lemma in_step_gets_tag : in_step (gets current_event) (gets current_event).
Proof. intros s1 s2 H. simpl. split; [f_equal; apply H | exact H]. Qed.

Lemma in_step_set_current_event (t : option string) :
  in_step (set_current_event t) (set_current_event t).
Proof.
  intros s1 s2 [_ Hv]. simpl. split; [reflexivity |]. split; [reflexivity |].
  exact Hv.
Qed.

Variable f : sink.
Variables clock1 clock2 : nat -> float.
Hypothesis sink_returns : forall h ev, f h ev = None.

Lemma in_step_flush_buffer :
  in_step (flush_buffer (Some f) clock1) (flush_buffer (Some f) clock2).
Proof.
  intros s1 s2 [Ht Hv].
  destruct (flush_buffer_returns f clock1 s1 sink_returns) as (t1 & -> & Ht1 & _ & Hv1).
  destruct (flush_buffer_returns f clock2 s2 sink_returns) as (t2 & -> & Ht2 & _ & Hv2).
  simpl. split; [reflexivity |]. split; congruence.
Qed.

(** Lines 223-224 and 226-227. *)
Lemma in_step_tagged (mk : pyval -> event) (v : pyval) :
  in_step
    (flush_buffer (Some f) clock1 ;;
     d <- lift (Py.get v "data" (PDict [])) ;;
     await_emitter f (mk d))
    (flush_buffer (Some f) clock2 ;;
     d <- lift (Py.get v "data" (PDict [])) ;;
     await_emitter f (mk d)).
Proof.
  intros s1 s2 [Ht Hv]. unfold bind, lift.
  destruct (flush_buffer_returns f clock1 s1 sink_returns) as (t1 & -> & Ht1 & Hb1 & Hv1).
  destruct (flush_buffer_returns f clock2 s2 sink_returns) as (t2 & -> & Ht2 & Hb2 & Hv2).
  destruct (Py.get v "data" (PDict [])) as [d | e]; simpl.
  - unfold await_emitter. rewrite !sink_returns. simpl.
    split; [reflexivity |]. split; [simpl; congruence |].
    rewrite (view_call t1 (mk d) Hb1), (view_call t2 (mk d) Hb2). congruence.
  - split; [reflexivity |]. split; congruence.
Qed.

(** Lines 230-233. *)
Lemma in_step_append (content : pyval) :
  Py.truthy content = true ->
  in_step
    (buf <- gets token_buffer ;;
     buf' <- lift (Py.str_concat buf content) ;;
     set_token_buffer buf' ;;
     now <- monotonic clock1 ;;
     last <- gets last_flush ;;
     if PrimFloat.leb FLUSH_INTERVAL (PrimFloat.sub now last) then flush_buffer (Some f) clock1
     else ret tt)
    (buf <- gets token_buffer ;;
     buf' <- lift (Py.str_concat buf content) ;;
     set_token_buffer buf' ;;
     now <- monotonic clock2 ;;
     last <- gets last_flush ;;
     if PrimFloat.leb FLUSH_INTERVAL (PrimFloat.sub now last) then flush_buffer (Some f) clock2
     else ret tt).
Proof.
  intros Hc s1 s2 [Ht Hv].
  destruct content as [| | | | c | |];
    try (unfold bind, gets, lift; simpl; split; [reflexivity | split; assumption]).
  simpl in Hc.
  set (a1 := mkState (current_event s1) (token_buffer s1 ++ c) (last_flush s1)
                     (emitted s1) (S (ticks s1))).
  set (a2 := mkState (current_event s2) (token_buffer s2 ++ c) (last_flush s2)
                     (emitted s2) (S (ticks s2))).
  assert (Ha : sim a1 a2).
  { split; [exact Ht |]. unfold a1, a2.
    rewrite (view_append s1 c _ _ _ Hc), (view_append s2 c _ _ _ Hc). congruence. }
  unfold bind, gets, lift, set_token_buffer, modify, monotonic. simpl.
  fold a1 a2.
  destruct (PrimFloat.leb FLUSH_INTERVAL (PrimFloat.sub (clock1 (ticks s1)) (last_flush s1)));
    destruct (PrimFloat.leb FLUSH_INTERVAL (PrimFloat.sub (clock2 (ticks s2)) (last_flush s2))).
  - apply in_step_flush_buffer. exact Ha.
  - destruct (flush_buffer_returns f clock1 a1 sink_returns) as (t1 & -> & Ht1 & _ & Hv1).
    simpl. split; [reflexivity |]. destruct Ha as [Hta Hva]. split; congruence.
  - destruct (flush_buffer_returns f clock2 a2 sink_returns) as (t2 & -> & Ht2 & _ & Hv2).
    simpl. split; [reflexivity |]. destruct Ha as [Hta Hva]. split; congruence.
  - simpl. split; [reflexivity | exact Ha].
Qed.

Variable json_loads : string -> result pyval.

Lemma in_step_handle_data (data : pyval) :
  in_step (handle_data (Some f) clock1 data) (handle_data (Some f) clock2 data).
Proof.
  unfold handle_data.
  apply in_step_bind; [apply in_step_gets_tag | intros tag].
  destruct (tag_is "status" tag); [apply in_step_tagged |].
  destruct (tag_is "source" tag); [apply in_step_tagged |].
  apply in_step_bind; [apply in_step_lift | intros choices].
  destruct (Py.truthy choices); [| apply in_step_ret].
  apply in_step_bind; [apply in_step_lift | intros first].
  apply in_step_bind; [apply in_step_lift | intros delta].
  apply in_step_bind; [apply in_step_lift | intros content].
  destruct (Py.truthy content) eqn:Hc; [| apply in_step_ret].
  apply in_step_append. exact Hc.
Qed.

Lemma in_step_process_line (raw : string) :
  in_step (process_line json_loads (Some f) clock1 raw)
          (process_line json_loads (Some f) clock2 raw).
Proof.
  unfold process_line.
  destruct (negb (PyStr.nonempty (PyStr.strip raw))); [apply in_step_ret |].
  destruct (PyStr.startswith "event: " (PyStr.strip raw)).
  { apply in_step_bind; [apply in_step_set_current_event | intros _; apply in_step_ret]. }
  destruct (PyStr.startswith "data: " (PyStr.strip raw)); [| apply in_step_ret].
  destruct (String.eqb _ "[DONE]").
  { apply in_step_bind; [apply in_step_flush_buffer | intros _; apply in_step_ret]. }
  apply in_step_bind; [| intros _; apply in_step_ret].
  apply in_step_try_except; [| apply in_step_set_current_event].
  apply in_step_bind; [apply in_step_lift | intros data].
  apply in_step_bind; [apply in_step_handle_data | intros _].
  apply in_step_set_current_event.
Qed.

Lemma in_step_stream_loop (lines : list string) :
  in_step (stream_loop json_loads (Some f) clock1 lines)
          (stream_loop json_loads (Some f) clock2 lines).
Proof.
  induction lines as [| l rest IH]; simpl.
  - apply in_step_ret.
  - apply in_step_bind; [apply in_step_process_line | intros [|]];
      [exact IH | apply in_step_ret].
Qed.

Lemma in_step_relay_body (lines : list string) (ending : option exn) :
  in_step (relay_body json_loads (Some f) clock1 lines ending)
          (relay_body json_loads (Some f) clock2 lines ending).
Proof.
  unfold relay_body.
  apply in_step_bind; [apply in_step_stream_loop | intros c].
  apply in_step_bind; [| intros _; apply in_step_flush_buffer].
  destruct c, ending; first [apply in_step_raise | apply in_step_ret].
Qed.

End InStep.

(** A body that ends without an exception ends with an empty buffer. *)
Lemma relay_body_ends_flushed
    (json_loads : string -> result pyval) (f : sink) (clock : nat -> float)
    (lines : list string) (ending : option exn) (s s1 : relay_state) :
  relay_body json_loads (Some f) clock lines ending s = (Ok tt, s1) ->
  token_buffer s1 = "".
Proof.
  unfold relay_body, bind.
  destruct (stream_loop json_loads (Some f) clock lines s) as [[c | e] t1];
    [| discriminate].
  destruct (match c with
            | Continue => match ending with Some e => raise e | None => ret tt end
            | Break => ret tt
            end t1) as [[[] | e] t2]; [| discriminate].
  apply flush_buffer_clears.
Qed.

Lemma handlers_never_empty (v : Valves) (e : exn) : handlers v e <> Ok "".
Proof. destruct e; simpl; discriminate. Qed.

(** X19. Batching decides only how the text is cut into [Message]s. Two
    runs of [pipe] that differ in nothing but the clock return the same
    value, and when that value is the empty string their sink calls are the
    same once adjacent [Message]s are joined: the same text, and the same
    status and citation events at the same places in it. The sink is taken to
    return from every call. *)
Theorem batching_is_transparent
    (json_loads : string -> result pyval) (f : sink) (clock1 clock2 : nat -> float)
    (transport : request -> transport_result) (v : Valves) :
  (forall h ev, f h ev = None) ->
  returned (pipe json_loads (Some f) clock1 transport v)
  = returned (pipe json_loads (Some f) clock2 transport v)
  /\ (returned (pipe json_loads (Some f) clock1 transport v) = Ok "" ->
      coalesce (sink_calls (pipe json_loads (Some f) clock1 transport v))
      = coalesce (sink_calls (pipe json_loads (Some f) clock2 transport v))).
Proof.
  intros Hf. unfold pipe.
  destruct (negb (PyStr.nonempty (TOOLSET_API_URL v))); [auto |].
  destruct (negb (PyStr.nonempty (TOOLSET_API_KEY v))); [auto |].
  destruct (transport (build_request v)) as [e | code lines ending]; [auto |].
  destruct (status_cases code) as [Hc | Hc].
  - rewrite !(relay_response_ok _ _ _ _ _ _ Hc).
    assert (H0 : sim (mkState None "" (clock1 0%nat) [] 1)
                     (mkState None "" (clock2 0%nat) [] 1))
      by (split; reflexivity).
    pose proof (in_step_relay_body f clock1 clock2 Hf json_loads lines ending
                  _ _ H0) as [Hr [_ Hv]].
    destruct (relay_body json_loads (Some f) clock1 lines ending _)
      as [[[] | e1] t1] eqn:H1;
      destruct (relay_body json_loads (Some f) clock2 lines ending _)
        as [[[] | e2] t2] eqn:H2; simpl in *; try discriminate.
    + split; [reflexivity | intros _].
      apply relay_body_ends_flushed in H1. apply relay_body_ends_flushed in H2.
      unfold view, pending_message in Hv. rewrite H1, H2 in Hv. simpl in Hv.
      now rewrite !app_nil_r in Hv.
    + injection Hr as <-. split; [reflexivity |].
      intros H. exfalso. exact (handlers_never_empty v e1 H).
  - rewrite !(relay_response_bad_status _ _ _ _ _ _ Hc). simpl. auto.
Qed.

Lemma batching_is_transparent_witness :
  coalesce
    (sink_calls
       (pipe Json.loads (Some Fixtures.accepting_sink) Fixtures.frozen_clock
             (Fixtures.serve [Fixtures.frame_He; Fixtures.frame_llo; "event: status";
                              Fixtures.frame_status; Fixtures.frame_He] None)
             Fixtures.valves))
  = coalesce
      (sink_calls
         (pipe Json.loads (Some Fixtures.accepting_sink)
               Fixtures.seconds
               (Fixtures.serve [Fixtures.frame_He; Fixtures.frame_llo; "event: status";
                                Fixtures.frame_status; Fixtures.frame_He] None)
               Fixtures.valves)).
Proof.
  apply (batching_is_transparent Json.loads Fixtures.accepting_sink
           Fixtures.frozen_clock Fixtures.seconds
           (Fixtures.serve [Fixtures.frame_He; Fixtures.frame_llo; "event: status";
                            Fixtures.frame_status; Fixtures.frame_He] None)
           Fixtures.valves).
  - reflexivity.
  - vm_compute. reflexivity.
Defined.


(** ** No token is lost *)

Lemma coalesce_idempotent (xs : list event) : coalesce (coalesce xs) = coalesce xs.
Proof.
  pose proof (coalesce_app_l xs []) as H. now rewrite !app_nil_r in H.
Qed.

Lemma coalesce_messages (cs : list string) :
  coalesce (map Message cs)
  = match cs with
    | [] => []
    | _ :: _ => [Message (String.concat "" cs)]
    end.
Proof.
  induction cs as [| c [| c' cs] IH]; simpl in *; [reflexivity | | ].
  - now destruct c.
  - rewrite IH. simpl. reflexivity.
Qed.

(** A token frame outside a status or source tag, with a sink that returns:
    whatever the clock says, the iteration goes on with the tag cleared and
    the text added to the view. *)
Lemma process_line_token_view
    (json_loads : string -> result pyval) (f : sink) (clock : nat -> float)
    (raw c : string) (s : relay_state) :
  (forall h ev, f h ev = None) ->
  token_line json_loads raw c ->
  tag_is "status" (current_event s) = false ->
  tag_is "source" (current_event s) = false ->
  exists s1,
    process_line json_loads (Some f) clock raw s = (Ok Continue, s1)
    /\ current_event s1 = None
    /\ view s1 = coalesce (view s ++ [Message c])%list.
Proof.
  intros Hf (d & v & Hraw & Hd & Hj & (choices & first & delta & Hc & Ht & Hi & Hde & Hco) & Hne)
         Hst Hso.
  rewrite (process_line_data json_loads (Some f) clock raw d s Hraw)
    by (apply String.eqb_neq; exact Hd).
  unfold bind, try_except, lift, handle_data, gets, bind, lift.
  rewrite Hj. simpl. rewrite Hst, Hso, Hc, Ht, Hi, Hde, Hco. simpl.
  rewrite Hne. simpl.
  set (a := mkState (current_event s) (token_buffer s ++ c) (last_flush s)
                    (emitted s) (S (ticks s))).
  assert (Hv : view a = coalesce (view s ++ [Message c])%list)
    by (apply view_append; exact Hne).
  destruct (PrimFloat.leb FLUSH_INTERVAL (PrimFloat.sub (clock (ticks s)) (last_flush s))).
  - destruct (flush_buffer_returns f clock a Hf) as (t & -> & _ & Hb & Hvt).
    simpl. eexists. split; [reflexivity |]. split; [reflexivity |].
    unfold view, pending_message in *. simpl in *. congruence.
  - simpl. eexists. split; [reflexivity |]. split; [reflexivity |].
    unfold view, pending_message in *. simpl in *. exact Hv.
Qed.

Lemma stream_loop_token_run
    (json_loads : string -> result pyval) (f : sink) (clock : nat -> float)
    (raws cs : list string) (tail : list string) :
  (forall h ev, f h ev = None) ->
  Forall2 (token_line json_loads) raws cs ->
  forall s,
    current_event s = None ->
    exists s1,
      stream_loop json_loads (Some f) clock (raws ++ tail) s
      = stream_loop json_loads (Some f) clock tail s1
      /\ current_event s1 = None
      /\ view s1 = coalesce (view s ++ map Message cs)%list.
Proof.
  intros Hf H. induction H as [| raw c raws cs Hl _ IH]; intros s Hcur.
  - exists s. split; [reflexivity |]. split; [exact Hcur |].
    simpl. rewrite app_nil_r. unfold view. now rewrite coalesce_idempotent.
  - destruct (process_line_token_view json_loads f clock raw c s Hf Hl)
      as (s1 & Hp & Hc1 & Hv1); [now rewrite Hcur | now rewrite Hcur |].
    destruct (IH s1 Hc1) as (s2 & Hloop & Hc2 & Hv2).
    exists s2. split; [| split; [exact Hc2 |]].
    + simpl app. rewrite (stream_loop_cons _ _ _ _ _ _ _ Hp). exact Hloop.
    + rewrite Hv2, Hv1, coalesce_app_l, <- app_assoc. reflexivity.
Qed.

(** X20. No token is lost, repeated or moved: for a body made of any
    number of token frames followed by the sentinel, [pipe] returns the empty
    string and the [Message]s it sent, joined, are one [Message] with the
    contents of all the frames in their order (none when there is no frame),
    however the clock cut them. The sink is taken to return from every
    call. *)
Theorem token_text_is_delivered_whole
    (json_loads : string -> result pyval) (f : sink) (clock : nat -> float)
    (transport : request -> transport_result) (v : Valves)
    (code : Z) (raws cs rest : list string) (rawd : string) (ending : option exn) :
  PyStr.nonempty (TOOLSET_API_URL v) = true ->
  PyStr.nonempty (TOOLSET_API_KEY v) = true ->
  transport (build_request v) = Response code (raws ++ rawd :: rest) ending ->
  (200 <= code <= 299)%Z ->
  Forall2 (token_line json_loads) raws cs ->
  PyStr.strip rawd = "data: [DONE]" ->
  (forall h ev, f h ev = None) ->
  returned (pipe json_loads (Some f) clock transport v) = Ok ""
  /\ coalesce (sink_calls (pipe json_loads (Some f) clock transport v))
     = match cs with
       | [] => []
       | _ :: _ => [Message (String.concat "" cs)]
       end.
Proof.
  intros Hu Hk Ht Hcode Hraws Hdone Hf.
  rewrite (pipe_configured _ _ _ _ _ Hu Hk), Ht.
  rewrite (relay_response_ok _ _ _ _ _ _ Hcode).
  destruct (stream_loop_token_run json_loads f clock raws cs (rawd :: rest) Hf Hraws
              (mkState None "" (clock 0%nat) [] 1) eq_refl)
    as (s1 & Hloop & _ & Hv1).
  destruct (flush_buffer_returns f clock s1 Hf) as (s2 & Hfl & _ & Hb2 & Hv2).
  assert (Hbody :
    relay_body json_loads (Some f) clock (raws ++ rawd :: rest) ending
               (mkState None "" (clock 0%nat) [] 1)
    = (Ok tt, s2)).
  { unfold relay_body. unfold bind at 1. rewrite Hloop. simpl stream_loop.
    unfold bind at 1. rewrite (process_line_done json_loads (Some f) clock rawd s1 Hdone).
    unfold bind at 1. rewrite Hfl. simpl. unfold bind. simpl.
    rewrite (flush_buffer_empty (Some f) clock s2 Hb2). reflexivity. }
  rewrite Hbody. simpl. split; [reflexivity |].
  rewrite <- coalesce_messages.
  unfold view, pending_message in Hv2, Hv1. rewrite Hb2 in Hv2. simpl in Hv2, Hv1.
  rewrite app_nil_r in Hv2. rewrite Hv2. exact Hv1.
Qed.

Lemma token_text_is_delivered_whole_witness :
  coalesce
    (sink_calls
       (pipe Json.loads (Some Fixtures.accepting_sink) Fixtures.seconds
             (Fixtures.serve [Fixtures.frame_He; Fixtures.frame_llo; Fixtures.frame_done]
                             None)
             Fixtures.valves))
  = [Message "Hello"].
Proof.
  apply (token_text_is_delivered_whole Json.loads Fixtures.accepting_sink
           Fixtures.seconds
           (Fixtures.serve [Fixtures.frame_He; Fixtures.frame_llo; Fixtures.frame_done]
                           None)
           Fixtures.valves 200%Z [Fixtures.frame_He; Fixtures.frame_llo]
           ["He"; "llo"] [] Fixtures.frame_done None).
  - reflexivity.
  - reflexivity.
  - reflexivity.
  - lia.
  - repeat constructor.
    + exists (PyStr.q "{'choices':[{'delta':{'content':'He'}}]}"),
        (PDict [("choices", PList [PDict [("delta", PDict [("content", PStr "He")])]])]).
      repeat split; try reflexivity; try discriminate.
      do 3 eexists. repeat split; reflexivity.
    + exists (PyStr.q "{'choices':[{'delta':{'content':'llo'}}]}"),
        (PDict [("choices", PList [PDict [("delta", PDict [("content", PStr "llo")])]])]).
      repeat split; try reflexivity; try discriminate.
      do 3 eexists. repeat split; reflexivity.
  - reflexivity.
  - reflexivity.
Defined.


(** ** Two token frames and the timer *)







